(** * HairGPT: a shallow embedding of [main.py]

    The program is one Python module: a pydantic data model
    ([HairAnalysis]), an image codec ([encode_image]), and a Gradio handler
    ([analyze_hair]) that encodes the uploaded picture, performs one
    structured-output chat completion and renders the parsed answer with an
    f-string.

    Conventions of the embedding.
    - A Python [str] is a Rocq [string] holding its UTF-8 bytes (the bullet
      U+2022 is the three bytes E2 80 A2); [bytes] is [list byte].
    - A Python [int] is a [Z].
    - The two collaborators that are not code of this module, Pillow's JPEG
      writer and the OpenAI client, are fields of a [World] record; every
      statement quantifies over them.
    - Effects (log records, outbound calls) are events appended to a trace
      that is threaded through a small state-and-exception monad. *)

From Stdlib Require Import ZArith NArith List Lia.
From Stdlib.Strings Require Import String Ascii Byte.
From Stdlib Require Import DecimalString DecimalZ.
From stdpp Require Import gmap strings.

Import ListNotations.
Local Open Scope string_scope.

(** ** Python strings *)

Module Py.

(** [chr(n)] for a code point below 128. *)
Definition chr (n : nat) : string := String (ascii_of_nat n) EmptyString.

(** The line feed, written [\n] inside Python literals. *)
Definition LF : string := chr 10.

(** [sep.join(xs)]. *)
Fixpoint join (sep : string) (xs : list string) : string :=
  match xs with
  | [] => EmptyString
  | [x] => x
  | x :: rest => x +:+ sep +:+ join sep rest
  end.

(** An f-string is the concatenation of its literal pieces and of the
    formatted values of its replacement fields, left to right. *)
Fixpoint fstring (pieces : list string) : string :=
  match pieces with
  | [] => EmptyString
  | p :: rest => p +:+ fstring rest
  end.

(** The decimal text of an [int]: digits, a leading minus sign for
    negative numbers, no leading zeros. This is what [str(n)] and
    [format(n, '')] give when they return; [format_int] below adds the
    limit on the number of digits beyond which they raise. *)
Definition str_int (n : Z) : string := NilZero.string_of_int (Z.to_int n).

(** [int(s)] restricted to what [str_int] prints. *)
Definition int_of_str (s : string) : option Z :=
  option_map Z.of_int (NilZero.int_of_string s).

(** Truthiness of a list: [bool(xs)]. *)
Definition truthy {A} (xs : list A) : bool :=
  match xs with [] => false | _ :: _ => true end.

End Py.

(** ** The data model *)

(** What [pydantic.Field] records about a field: whether it is required
    (the [...] default), the description, and numeric bounds when the
    declaration gives any. *)
Record FieldInfo := {
  fi_name        : string;
  fi_annotation  : string;
  fi_required    : bool;
  fi_description : string;
  fi_ge          : option Z;
  fi_le          : option Z
}.

Definition Field (name annotation description : string) : FieldInfo :=
  {| fi_name := name; fi_annotation := annotation; fi_required := true;
     fi_description := description; fi_ge := None; fi_le := None |}.

(** The bound check pydantic runs on an integer field. *)
Definition int_constraints_ok (f : FieldInfo) (n : Z) : bool :=
  match fi_ge f with Some lo => (lo <=? n)%Z | None => true end &&
  match fi_le f with Some hi => (n <=? hi)%Z | None => true end.

Record HairAnalysis := {
  hair_type       : string;
  hair_texture    : string;
  scalp_condition : string;
  visible_issues  : list string;
  health_score    : Z;
  recommendations : list string
}.

Definition HairAnalysis_fields : list FieldInfo :=
  [ Field "hair_type" "str" "The type of hair (straight, wavy, curly, coily)";
    Field "hair_texture" "str" "The texture of the hair (fine, medium, coarse)";
    Field "scalp_condition" "str" "The condition of the scalp";
    Field "visible_issues" "List[str]" "List of visible issues with the hair";
    Field "health_score" "int" "Hair health score (must be between 1 and 10)";
    Field "recommendations" "List[str]" "List of recommendations for hair care" ].

Definition health_score_field : FieldInfo :=
  Field "health_score" "int" "Hair health score (must be between 1 and 10)".

(** ** The result formatter: the f-string of [analyze_hair] *)

Definition bullet (item : string) : string := "   • " +:+ item.

Definition issues_block (result : HairAnalysis) : string :=
  if Py.truthy (visible_issues result)
  then Py.join (Py.chr 10) (map bullet (visible_issues result))
  else "   No major issues detected".

Definition recommendations_block (result : HairAnalysis) : string :=
  Py.join (Py.chr 10) (map bullet (recommendations result)).

(** The f-string, given the text of its score field. *)
Definition formatted_with (result : HairAnalysis) (score : string) : string :=
  Py.fstring
    [ Py.LF;
      "Hair Analysis Results:"; Py.LF;
      Py.LF;
      "1. Hair Type: "; hair_type result; Py.LF;
      "2. Hair Texture: "; hair_texture result; Py.LF;
      "3. Scalp Condition: "; scalp_condition result; Py.LF;
      "4. Visible Issues:"; Py.LF;
      issues_block result; Py.LF;
      "5. Hair Health Score: "; score; "/10"; Py.LF;
      "6. Recommendations:"; Py.LF;
      recommendations_block result; Py.LF ].

(** The text of the f-string when the score converts to its digits. *)
Definition formatted_result (result : HairAnalysis) : string :=
  formatted_with result (Py.str_int (health_score result)).

(** ** Base64 ([base64.b64encode] / [base64.b64decode], RFC 4648 section 4) *)

Module Base64.

Definition alphabet : string :=
  "ABCDEFGHIJKLMNOPQRSTUVWXYZabcdefghijklmnopqrstuvwxyz0123456789+/".

Definition pad : ascii := "="%char.

(** The character of a 6-bit group. *)
Definition char_of_sextet (n : N) : ascii :=
  match String.get (N.to_nat n) alphabet with
  | Some c => c
  | None => pad
  end.

(** The position of a character in the alphabet. *)
Fixpoint find_char (c : ascii) (s : string) (i : N) : option N :=
  match s with
  | EmptyString => None
  | String d rest => if Ascii.eqb c d then Some i else find_char c rest (N.succ i)
  end.

Definition sextet_of_char (c : ascii) : option N := find_char c alphabet 0.

Definition byte_of_N (n : N) : byte :=
  match Byte.of_N (n mod 256) with Some b => b | None => x00 end.

(** Three octets as one 24-bit group. *)
Definition group24 (a b c : byte) : N :=
  (Byte.to_N a * 65536 + Byte.to_N b * 256 + Byte.to_N c)%N.

Definition sextet (k : N) (g : N) : N := ((g / 64 ^ (3 - k)) mod 64)%N.

Fixpoint b64encode (bs : list byte) : string :=
  match bs with
  | [] => EmptyString
  | [a] =>
      let g := group24 a x00 x00 in
      String (char_of_sextet (sextet 0 g)) (String (char_of_sextet (sextet 1 g))
        (String pad (String pad EmptyString)))
  | [a; b] =>
      let g := group24 a b x00 in
      String (char_of_sextet (sextet 0 g)) (String (char_of_sextet (sextet 1 g))
        (String (char_of_sextet (sextet 2 g)) (String pad EmptyString)))
  | a :: b :: c :: rest =>
      let g := group24 a b c in
      String (char_of_sextet (sextet 0 g)) (String (char_of_sextet (sextet 1 g))
        (String (char_of_sextet (sextet 2 g)) (String (char_of_sextet (sextet 3 g))
          (b64encode rest))))
  end.

(** Four sextets back to a 24-bit group. *)
Definition ungroup (s0 s1 s2 s3 : N) : N :=
  (s0 * 262144 + s1 * 4096 + s2 * 64 + s3)%N.

Definition octet (k : N) (g : N) : byte := byte_of_N (g / 256 ^ (2 - k)).

(** Decoding of canonical, padded input; anything else is rejected. *)
Fixpoint b64decode (s : string) : option (list byte) :=
  match s with
  | EmptyString => Some []
  | String c0 (String c1 (String c2 (String c3 rest))) =>
      match sextet_of_char c0, sextet_of_char c1 with
      | Some s0, Some s1 =>
          match sextet_of_char c2, sextet_of_char c3 with
          | Some s2, Some s3 =>
              let g := ungroup s0 s1 s2 s3 in
              match b64decode rest with
              | Some bs => Some (octet 0 g :: octet 1 g :: octet 2 g :: bs)
              | None => None
              end
          | Some s2, None =>
              if Ascii.eqb c3 pad && String.eqb rest EmptyString
              then let g := ungroup s0 s1 s2 0 in Some [octet 0 g; octet 1 g]
              else None
          | None, _ =>
              if Ascii.eqb c2 pad && Ascii.eqb c3 pad && String.eqb rest EmptyString
              then let g := ungroup s0 s1 0 0 in Some [octet 0 g]
              else None
          end
      | _, _ => None
      end
  | _ => None
  end.

End Base64.


(** ** Exceptions, events and the handler monad *)

(** An instance of Python's [Exception]: its class and [str(e)]. *)
Record PyException := {
  exc_class   : string;
  exc_message : string
}.

Definition str_exc (e : PyException) : string := exc_message e.

Definition OSError (msg : string) : PyException :=
  {| exc_class := "OSError"; exc_message := msg |}.
Definition TypeError (msg : string) : PyException :=
  {| exc_class := "TypeError"; exc_message := msg |}.
Definition IndexError (msg : string) : PyException :=
  {| exc_class := "IndexError"; exc_message := msg |}.
Definition AttributeError (msg : string) : PyException :=
  {| exc_class := "AttributeError"; exc_message := msg |}.
Definition APIConnectionError (msg : string) : PyException :=
  {| exc_class := "openai.APIConnectionError"; exc_message := msg |}.
Definition ValueError (msg : string) : PyException :=
  {| exc_class := "ValueError"; exc_message := msg |}.

Inductive Outcome (A : Type) : Type :=
| Return (a : A)
| Raise (e : PyException).
Arguments Return {A} a.
Arguments Raise {A} e.

(** ** Converting an [int] to text *)

(** [sys.get_int_max_str_digits()], the interpreter's default. *)
Definition int_max_str_digits : nat := 4300.

(** The number of decimal digits of [n], its sign left out. *)
Definition decimal_digits (n : Z) : nat := String.length (Py.str_int (Z.abs n)).

(** [format(n, '')], as a replacement field of an f-string computes it: the
    conversion raises once the number has more digits than the limit;
    otherwise it gives the digits [Py.str_int] prints. *)
Definition digit_limit_error : PyException :=
  ValueError
    "Exceeds the limit (4300 digits) for integer string conversion; use sys.set_int_max_str_digits() to increase the limit".

Definition format_int (n : Z) : Outcome string :=
  if (int_max_str_digits <? decimal_digits n)%nat
  then Raise digit_limit_error
  else Return (Py.str_int n).

(** The request passed to [client.beta.chat.completions.parse]. *)
Inductive ContentPart : Type :=
| TextPart (text : string)
| ImageUrlPart (url : string).

Inductive Content : Type :=
| ContentText (text : string)
| ContentParts (parts : list ContentPart).

Record ChatMessage := {
  role    : string;
  content : Content
}.

Record PydanticModel := {
  model_name   : string;
  model_fields : list FieldInfo
}.

Record ParseRequest := {
  model           : string;
  messages        : list ChatMessage;
  response_format : PydanticModel
}.

(** The answer: [completion.choices[i].message.parsed], which the client
    leaves at [None] when the model refuses. *)
Record ParsedMessage := { parsed : option HairAnalysis }.
Record Choice := { message : ParsedMessage }.
Record ParsedChatCompletion := { choices : list Choice }.

Inductive LogLevel : Type := DEBUG | INFO | ERROR.

Inductive Event : Type :=
| Logged (level : LogLevel) (msg : string) (exc_info : option PyException)
| RemoteCall (request : ParseRequest).

Definition Trace := list Event.

(** A computation reads the trace so far, extends it, and returns or
    raises. *)
Definition PyM (A : Type) : Type := Trace -> Outcome A * Trace.

Definition ret {A} (a : A) : PyM A := fun tr => (Return a, tr).

Definition raise {A} (e : PyException) : PyM A := fun tr => (Raise e, tr).

Definition bind {A B} (m : PyM A) (k : A -> PyM B) : PyM B :=
  fun tr =>
    match m tr with
    | (Return a, tr') => k a tr'
    | (Raise e, tr') => (Raise e, tr')
    end.

(** [try: body / except Exception as e: handler]. *)
Definition try_except {A} (body : PyM A) (handler : PyException -> PyM A) : PyM A :=
  fun tr =>
    match body tr with
    | (Return a, tr') => (Return a, tr')
    | (Raise e, tr') => handler e tr'
    end.

Definition emit (ev : Event) : PyM unit := fun tr => (Return tt, (tr ++ [ev])%list).

Definition lift {A} (o : Outcome A) : PyM A := fun tr => (o, tr).

Declare Scope py_scope.
Delimit Scope py_scope with py.
Notation "'let*' x ':=' m 'in' k" := (bind m (fun x => k))
  (at level 10, x name, m at level 100, k at level 200) : py_scope.
Notation "'exec' m 'in' k" := (bind m (fun _ => k))
  (at level 10, m at level 100, k at level 200) : py_scope.

(** The root logger is configured at level DEBUG, so every record is kept. *)
Definition logger_debug (msg : string) : PyM unit := emit (Logged DEBUG msg None).
Definition logger_info (msg : string) : PyM unit := emit (Logged INFO msg None).
Definition logger_error (msg : string) (exc : PyException) : PyM unit :=
  emit (Logged ERROR msg (Some exc)).

(** ** The collaborators *)

Record PILImage := {
  im_mode : string;
  im_size : nat * nat;
  im_data : list byte
}.

(** What one HTTP attempt of the client comes to: an answer parsed into a
    completion, or an error; [retryable] tells the errors the client sends
    again (connection errors, timeouts, status 408, 409, 429 and 5xx) from
    those it raises at once. *)
Inductive Attempt : Type :=
| Answered (completion : ParsedChatCompletion)
| Failed (retryable : bool) (e : PyException).

(** A client: how many times it sends a request again ([OpenAI()] sets 2),
    and what its [k]-th attempt at a request comes to. *)
Record OpenAIClient := {
  max_retries : nat;
  attempt     : ParseRequest -> nat -> Attempt
}.

Record World := {
  (** [image.save(buffered, format="JPEG")] followed by
      [buffered.getvalue()] on the fresh buffer. *)
  save_jpeg : PILImage -> Outcome (list byte);
  (** [OpenAI()], which reads the process environment. *)
  OpenAI : gmap string string -> Outcome OpenAIClient
}.

(** ** [encode_image] *)

Definition encode_image (w : World) (image : PILImage) : PyM string :=
  (let* buffered := lift (save_jpeg w image) in
   ret (Base64.b64encode buffered))%py.

(** ** [analyze_hair] *)

Definition system_prompt : string :=
  Py.join Py.LF
    [ "You are a professional hair analysis system. Analyze the image and provide structured information about the hair and scalp.";
      "                    Important scoring guidelines:";
      "                    - Health score must be an integer from 1 to 10";
      "                    - Score meanings:";
      "                      1-3: Poor condition";
      "                      4-6: Average condition";
      "                      7-8: Good condition";
      "                      9-10: Excellent condition" ].

Definition user_text : string :=
  "Analyze this hair/scalp image and provide a detailed hair analysis. Remember to provide a health score between 1 and 10 only.".

Definition HairAnalysis_model : PydanticModel :=
  {| model_name := "HairAnalysis"; model_fields := HairAnalysis_fields |}.

Definition build_request (img_base64 : string) : ParseRequest :=
  {| model := "gpt-4o-mini";
     messages :=
       [ {| role := "system"; content := ContentText system_prompt |};
         {| role := "user";
            content := ContentParts
              [ TextPart user_text;
                ImageUrlPart (Py.fstring ["data:image/jpeg;base64,"; img_base64]) ] |} ];
     response_format := HairAnalysis_model |}.

(** The client's request loop: attempt [k], with [remaining] retries left.
    Every attempt is one outbound request. *)
Fixpoint send_with_retries (client : OpenAIClient) (request : ParseRequest)
    (k remaining : nat) {struct remaining} : PyM ParsedChatCompletion :=
  (exec emit (RemoteCall request) in
   match attempt client request k with
   | Answered completion => ret completion
   | Failed false e => raise e
   | Failed true e =>
       match remaining with
       | O => raise e
       | S fewer => send_with_retries client request (S k) fewer
       end
   end)%py.

(** One invocation of [client.beta.chat.completions.parse]. *)
Definition client_parse (client : OpenAIClient) (request : ParseRequest)
  : PyM ParsedChatCompletion :=
  send_with_retries client request 0 (max_retries client).

(** What that invocation returns or raises, and how many requests it
    sends. *)
Definition chat_completions_parse (client : OpenAIClient) (request : ParseRequest)
  : Outcome ParsedChatCompletion :=
  fst (client_parse client request []).

Definition requests_sent (client : OpenAIClient) (request : ParseRequest) : nat :=
  length (snd (client_parse client request [])).

(** [completion.choices[0]]. *)
Definition first_choice (completion : ParsedChatCompletion) : PyM Choice :=
  match choices completion with
  | c :: _ => ret c
  | [] => raise (IndexError "list index out of range")
  end.

(** Evaluating the f-string. It reads [result.hair_type] first; on [None]
    that attribute access raises. Of the replacement fields only the score
    needs a conversion, which raises beyond the digit limit. *)
Definition format_parsed (result : option HairAnalysis) : PyM string :=
  match result with
  | Some r =>
      (let* score := lift (format_int (health_score r)) in
       ret (formatted_with r score))%py
  | None => raise (AttributeError "'NoneType' object has no attribute 'hair_type'")
  end.

Definition analyze_hair (w : World) (client : OpenAIClient) (image : option PILImage)
  : PyM string :=
  match image with
  | None => ret "Please upload an image for analysis."
  | Some image =>
      try_except
        (let* img_base64 := encode_image w image in
         exec logger_debug "Successfully encoded image to base64" in
         let* completion := client_parse client (build_request img_base64) in
         let* choice := first_choice completion in
         let* formatted := format_parsed (parsed (message choice)) in
         ret formatted)%py
        (fun e =>
           (exec logger_error (Py.fstring ["Error during analysis: "; str_exc e]) e in
            ret (Py.fstring ["Error analyzing image: "; str_exc e]))%py)
  end.

(** ** Module start-up and the serving loop *)

Definition load_dotenv (dotenv environ : gmap string string) : gmap string string :=
  environ ∪ dotenv.

Definition os_getenv (key : string) (environ : gmap string string) : option string :=
  environ !! key.

(** [os.environ[key] = value]: the value must be a [str]. *)
Definition os_environ_setitem (key : string) (value : option string)
    (environ : gmap string string) : Outcome (gmap string string) :=
  match value with
  | Some v => Return (<[key := v]> environ)
  | None => Raise (TypeError "str expected, not NoneType")
  end.

(** [os.environ["OPENAI_API_KEY"] = os.getenv("OPENAI_API_KEY")]. *)
Definition set_api_key (environ : gmap string string) : Outcome (gmap string string) :=
  os_environ_setitem "OPENAI_API_KEY" (os_getenv "OPENAI_API_KEY" environ) environ.

Record ModuleState := {
  os_environ : gmap string string;
  client     : OpenAIClient
}.

(** The statements executed when the module is loaded: [dotenv] is the
    content of the [.env] file (empty when there is none), [environ] the
    environment the process starts with. *)
Definition load_module (w : World) (dotenv environ : gmap string string)
  : PyM ModuleState :=
  (let environ1 := load_dotenv dotenv environ in
   let* environ2 := lift (set_api_key environ1) in
   let* c := lift (OpenAI w environ2) in
   ret {| os_environ := environ2; client := c |})%py.

(** The interface calls [fn] once per submission and shows its value. *)
Fixpoint serve (w : World) (client : OpenAIClient) (submissions : list (option PILImage))
  : PyM (list string) :=
  match submissions with
  | [] => ret []
  | image :: rest =>
      (let* shown := analyze_hair w client image in
       let* others := serve w client rest in
       ret (shown :: others))%py
  end.

Definition main (w : World) (dotenv environ : gmap string string)
    (submissions : list (option PILImage)) : PyM (list string) :=
  (let* m := load_module w dotenv environ in
   exec logger_info "Starting Hair Analysis Application" in
   serve w (client m) submissions)%py.

(** ** Reading a text line by line *)

(** [l] is a whole line of [s]: it sits between two line feeds. *)
Definition occurs_as_line (l s : string) : Prop :=
  exists pre post, s = pre +:+ Py.LF +:+ l +:+ Py.LF +:+ post.




(** Only the calls among the events of a trace. *)
Fixpoint remote_calls (tr : Trace) : list ParseRequest :=
  match tr with
  | [] => []
  | RemoteCall request :: rest => request :: remote_calls rest
  | Logged _ _ _ :: rest => remote_calls rest
  end.

(** ** The ways the pipeline of one submission can end *)

(** A failure of the pipeline: the encoder raises, the remote call raises,
    the answer cannot be read ([choices] is empty, or nothing was parsed),
    or the parsed score is too long to be converted to text. *)
Inductive pipeline_failure (w : World) (client : OpenAIClient) (image : PILImage)
  : PyException -> Prop :=
| encoding_failure (e : PyException) :
    save_jpeg w image = Raise e ->
    pipeline_failure w client image e
| remote_call_failure (jpeg : list byte) (e : PyException) :
    save_jpeg w image = Return jpeg ->
    chat_completions_parse client (build_request (Base64.b64encode jpeg)) = Raise e ->
    pipeline_failure w client image e
| parsing_failure_no_choice (jpeg : list byte) (completion : ParsedChatCompletion) :
    save_jpeg w image = Return jpeg ->
    chat_completions_parse client (build_request (Base64.b64encode jpeg))
      = Return completion ->
    choices completion = [] ->
    pipeline_failure w client image (IndexError "list index out of range")
| parsing_failure_not_parsed (jpeg : list byte) (completion : ParsedChatCompletion)
    (choice : Choice) (others : list Choice) :
    save_jpeg w image = Return jpeg ->
    chat_completions_parse client (build_request (Base64.b64encode jpeg))
      = Return completion ->
    choices completion = choice :: others ->
    parsed (message choice) = None ->
    pipeline_failure w client image
      (AttributeError "'NoneType' object has no attribute 'hair_type'")
| formatting_failure (jpeg : list byte) (completion : ParsedChatCompletion)
    (choice : Choice) (others : list Choice) (r : HairAnalysis) :
    save_jpeg w image = Return jpeg ->
    chat_completions_parse client (build_request (Base64.b64encode jpeg))
      = Return completion ->
    choices completion = choice :: others ->
    parsed (message choice) = Some r ->
    (int_max_str_digits < decimal_digits (health_score r))%nat ->
    pipeline_failure w client image digit_limit_error.

(** The remote client hands back the result [r] for this image, and its
    score is within the digit limit. *)
Inductive pipeline_result (w : World) (client : OpenAIClient) (image : PILImage)
  : HairAnalysis -> Prop :=
| parsed_result (jpeg : list byte) (completion : ParsedChatCompletion)
    (choice : Choice) (others : list Choice) (r : HairAnalysis) :
    save_jpeg w image = Return jpeg ->
    chat_completions_parse client (build_request (Base64.b64encode jpeg))
      = Return completion ->
    choices completion = choice :: others ->
    parsed (message choice) = Some r ->
    (decimal_digits (health_score r) <= int_max_str_digits)%nat ->
    pipeline_result w client image r.

(** ** What the handler shows and logs *)

(** The text shown for a caught exception, and the two log records the
    handler can write. *)
Definition error_text (e : PyException) : string :=
  "Error analyzing image: " +:+ str_exc e.

Definition error_record (e : PyException) : Event :=
  Logged ERROR ("Error during analysis: " +:+ str_exc e) (Some e).

Definition encoded_record : Event :=
  Logged DEBUG "Successfully encoded image to base64" None.


(** The client hands back the result [r] as the parsed value of its first
    choice for this image, whatever the score. *)
Definition hands_back (w : World) (client : OpenAIClient) (image : PILImage)
    (r : HairAnalysis) : Prop :=
  exists jpeg completion choice others,
    save_jpeg w image = Return jpeg /\
    chat_completions_parse client (build_request (Base64.b64encode jpeg))
      = Return completion /\
    choices completion = choice :: others /\
    parsed (message choice) = Some r.

(** What the handler shows for a parsed result. *)
Definition shown_for (r : HairAnalysis) : string :=
  if (int_max_str_digits <? decimal_digits (health_score r))%nat
  then error_text digit_limit_error
  else formatted_result r.

(** ** Sample data *)

Definition sample : HairAnalysis :=
  {| hair_type := "curly"; hair_texture := "coarse"; scalp_condition := "dry";
     visible_issues := ["dandruff"]; health_score := 6;
     recommendations := ["use moisturizing shampoo"] |}.

Definition healthy : HairAnalysis :=
  {| hair_type := "wavy"; hair_texture := "fine"; scalp_condition := "normal";
     visible_issues := []; health_score := 9; recommendations := [] |}.

Definition rgb_pixel : PILImage :=
  {| im_mode := "RGB"; im_size := (1, 1)%nat; im_data := [x10; x20; x30] |}.

Definition rgba_pixel : PILImage :=
  {| im_mode := "RGBA"; im_size := (1, 1)%nat; im_data := [x10; x20; x30; xff] |}.

(** A client that answers every request with one choice holding [r]. *)
Definition mock_client (r : HairAnalysis) : OpenAIClient :=
  {| max_retries := 2;
     attempt := fun _ _ =>
       Answered {| choices := [ {| message := {| parsed := Some r |} |} ] |} |}.

(** A client whose transport is down: every attempt fails to connect. *)
Definition offline_client : OpenAIClient :=
  {| max_retries := 2;
     attempt := fun _ _ => Failed true (APIConnectionError "Connection error.") |}.

(** A client whose answers hold no choice. *)
Definition silent_client : OpenAIClient :=
  {| max_retries := 2; attempt := fun _ _ => Answered {| choices := [] |} |}.

(** A second image, and a result whose score has 4301 digits. *)
Definition grey_pixel : PILImage :=
  {| im_mode := "L"; im_size := (1, 1)%nat; im_data := [x80] |}.

Definition overlong : HairAnalysis :=
  {| hair_type := "wavy"; hair_texture := "fine"; scalp_condition := "normal";
     visible_issues := []; health_score := 10 ^ 4300; recommendations := [] |}.

(** A writer that, like Pillow's, has no JPEG encoding for images with an
    alpha channel; the bytes it returns for the others stand for the file. *)
Definition mock_save_jpeg (image : PILImage) : Outcome (list byte) :=
  if String.eqb (im_mode image) "RGBA"
  then Raise (OSError "cannot write mode RGBA as JPEG")
  else Return ([xff; xd8] ++ im_data image ++ [xff; xd9])%list.

Definition mock_world (c : OpenAIClient) : World :=
  {| save_jpeg := mock_save_jpeg; OpenAI := fun _ => Return c |}.

(** ** Lines of a text *)

(** The line feed as a character. *)
Definition lf_char : ascii := ascii_of_nat 10.

(** Whether a text holds a line feed. *)
Fixpoint has_lf (s : string) : bool :=
  match s with
  | EmptyString => false
  | String c rest => Ascii.eqb c lf_char || has_lf rest
  end.

(** [s.split("\n")]: the text cut at every line feed. *)
Fixpoint split_lf (s : string) : list string :=
  match s with
  | EmptyString => [EmptyString]
  | String c rest =>
      if Ascii.eqb c lf_char then EmptyString :: split_lf rest
      else match split_lf rest with
           | l :: ls => String c l :: ls
           | [] => [String c EmptyString]
           end
  end.

(** No field of the result, and no element of its lists, holds a line
    feed. *)
Definition lf_free (r : HairAnalysis) : bool :=
  negb (has_lf (hair_type r)) && negb (has_lf (hair_texture r)) &&
  negb (has_lf (scalp_condition r)) &&
  forallb (fun x => negb (has_lf x)) (visible_issues r) &&
  forallb (fun x => negb (has_lf x)) (recommendations r).

(** ** Characters of an encoding *)

Definition is_base64_char (c : ascii) : bool :=
  match Base64.sextet_of_char c with
  | Some _ => true
  | None => Ascii.eqb c Base64.pad
  end.

Fixpoint string_forallb (p : ascii -> bool) (s : string) : bool :=
  match s with
  | EmptyString => true
  | String c rest => p c && string_forallb p rest
  end.

(** ** Log records and requests of a run *)

Definition level_eqb (a b : LogLevel) : bool :=
  match a, b with
  | DEBUG, DEBUG | INFO, INFO | ERROR, ERROR => true
  | _, _ => false
  end.

(** The messages logged at one level, oldest first. *)
Fixpoint logged_at (level : LogLevel) (tr : Trace) : list string :=
  match tr with
  | [] => []
  | Logged l msg _ :: rest =>
      if level_eqb l level then msg :: logged_at level rest else logged_at level rest
  | RemoteCall _ :: rest => logged_at level rest
  end.

(** The request the handler builds for a submission, when it builds one. *)
Definition request_of (w : World) (submission : option PILImage) : list ParseRequest :=
  match submission with
  | None => []
  | Some image =>
      match save_jpeg w image with
      | Return jpeg => [build_request (Base64.b64encode jpeg)]
      | Raise _ => []
      end
  end.

(** Whether a line is indented, as the lines of the two list sections are. *)
Definition indented (s : string) : bool :=
  match s with
  | String c _ => Ascii.eqb c " "%char
  | EmptyString => false
  end.

(** The requests one submission sends: none without image or when the
    writer refuses it, else the request of the image, once per attempt of
    the client. *)
Definition requests_for (w : World) (client : OpenAIClient)
    (submission : option PILImage) : list ParseRequest :=
  flat_map (fun request => repeat request (requests_sent client request))
    (request_of w submission).

(** The events the handler records for an image before it reads the
    answer: none when the writer refuses the image, else the debug record
    and one call per attempt. *)
Definition events_before_answer (w : World) (client : OpenAIClient)
    (image : PILImage) : Trace :=
  match save_jpeg w image with
  | Return jpeg =>
      encoded_record
      :: repeat (RemoteCall (build_request (Base64.b64encode jpeg)))
           (requests_sent client (build_request (Base64.b64encode jpeg)))
  | Raise _ => []
  end.

(** A process environment and a .env file that both define the key. *)
Definition process_environ : gmap string string :=
  {[ "OPENAI_API_KEY" := "sk-env" ]}.

Definition dotenv_file : gmap string string :=
  <[ "OPENAI_ORG_ID" := "org-file" ]> {[ "OPENAI_API_KEY" := "sk-file" ]}.

Definition loaded_module : ModuleState :=
  {| os_environ := process_environ ∪ dotenv_file; client := offline_client |}.

(** * Properties *)

(** ** Round trip of the base64 codec *)

Module Base64Facts.
Import Base64.

Lemma sextet_char_table :
  forallb (fun n => match sextet_of_char (char_of_sextet n) with
                    | Some m => N.eqb m n
                    | None => false
                    end)
          (map N.of_nat (seq 0 64)) = true.
Proof. vm_compute. reflexivity. Qed.

Lemma sextet_of_char_of_sextet (n : N) :
  (n < 64)%N -> sextet_of_char (char_of_sextet n) = Some n.
Proof.
  intros Hn.
  pose proof (proj1 (forallb_forall _ _) sextet_char_table n) as H.
  assert (Hin : In n (map N.of_nat (seq 0 64))).
  { apply in_map_iff. exists (N.to_nat n). split; [apply N2Nat.id|].
    apply in_seq. lia. }
  specialize (H Hin). simpl in H.
  destruct (sextet_of_char (char_of_sextet n)) as [m|]; [|discriminate].
  apply N.eqb_eq in H. now subst.
Qed.

Lemma sextet_lt (k g : N) : (sextet k g < 64)%N.
Proof. unfold sextet. apply N.mod_lt. discriminate. Qed.

Lemma byte_of_N_mod (n : N) (b : byte) :
  (n mod 256 = Byte.to_N b)%N -> byte_of_N n = b.
Proof. intros H. unfold byte_of_N. now rewrite H, Byte.of_to_N. Qed.

Local Ltac Zify.zify_post_hook ::= Z.to_euclidean_division_equations.

Lemma group_roundtrip (a b c : byte) :
  let g := group24 a b c in
  ungroup (sextet 0 g) (sextet 1 g) (sextet 2 g) (sextet 3 g) = g.
Proof.
  cbv zeta. unfold ungroup, sextet, group24.
  pose proof (Byte.to_N_bounded a). pose proof (Byte.to_N_bounded b).
  pose proof (Byte.to_N_bounded c).
  change (64 ^ (3 - 0))%N with 262144%N. change (64 ^ (3 - 1))%N with 4096%N.
  change (64 ^ (3 - 2))%N with 64%N. change (64 ^ (3 - 3))%N with 1%N.
  lia.
Qed.

Lemma octets_of_group (a b c : byte) :
  let g := group24 a b c in
  octet 0 g = a /\ octet 1 g = b /\ octet 2 g = c.
Proof.
  cbv zeta. unfold octet, group24.
  pose proof (Byte.to_N_bounded a). pose proof (Byte.to_N_bounded b).
  pose proof (Byte.to_N_bounded c).
  change (256 ^ (2 - 0))%N with 65536%N. change (256 ^ (2 - 1))%N with 256%N.
  change (256 ^ (2 - 2))%N with 1%N.
  repeat split; apply byte_of_N_mod; lia.
Qed.

Lemma to_N_x00 : Byte.to_N x00 = 0%N.
Proof. reflexivity. Qed.

Lemma pad_not_sextet : sextet_of_char pad = None.
Proof. reflexivity. Qed.

(** Decoding one encoded group gives the group back. *)
Lemma decode_sextets (a b c : byte) (k : N) :
  sextet_of_char (char_of_sextet (sextet k (group24 a b c)))
  = Some (sextet k (group24 a b c)).
Proof. apply sextet_of_char_of_sextet, sextet_lt. Qed.

Local Ltac arith_unfold :=
  unfold octet, ungroup, sextet, group24; rewrite ?to_N_x00;
  change (64 ^ (3 - 0))%N with 262144%N; change (64 ^ (3 - 1))%N with 4096%N;
  change (64 ^ (3 - 2))%N with 64%N; change (64 ^ (3 - 3))%N with 1%N;
  change (256 ^ (2 - 0))%N with 65536%N; change (256 ^ (2 - 1))%N with 256%N;
  change (256 ^ (2 - 2))%N with 1%N.

Lemma b64decode_b64encode_strong (n : nat) (bs : list byte) :
  (length bs <= n)%nat -> b64decode (b64encode bs) = Some bs.
Proof.
  revert bs. induction n as [|n IH]; intros bs Hlen.
  - destruct bs; [reflexivity | simpl in Hlen; lia].
  - destruct bs as [|a [|b [|c rest]]].
    + reflexivity.
    + cbn [b64encode b64decode]. rewrite !decode_sextets.
      rewrite pad_not_sextet. rewrite !Ascii.eqb_refl. cbn [andb String.eqb].
      do 2 f_equal. apply byte_of_N_mod. arith_unfold.
      pose proof (Byte.to_N_bounded a). lia.
    + cbn [b64encode b64decode]. rewrite !decode_sextets.
      rewrite pad_not_sextet. rewrite !Ascii.eqb_refl. cbn [andb String.eqb].
      pose proof (Byte.to_N_bounded a). pose proof (Byte.to_N_bounded b).
      do 2 f_equal; [|f_equal]; apply byte_of_N_mod; arith_unfold; lia.
    + cbn [b64encode b64decode]. rewrite !decode_sextets.
      rewrite (group_roundtrip a b c).
      pose proof (octets_of_group a b c) as (Ha & Hb & Hc).
      rewrite Ha, Hb, Hc.
      rewrite IH by (simpl in Hlen; lia). reflexivity.
Qed.

Lemma b64decode_b64encode (bs : list byte) :
  b64decode (b64encode bs) = Some bs.
Proof. apply (b64decode_b64encode_strong (length bs)). lia. Qed.

(** The test vectors of RFC 4648, section 10. *)
Example rfc4648_vectors :
  map b64encode
    [ []; [x66]; [x66; x6f]; [x66; x6f; x6f]; [x66; x6f; x6f; x62];
      [x66; x6f; x6f; x62; x61]; [x66; x6f; x6f; x62; x61; x72] ]
  = [ ""; "Zg=="; "Zm8="; "Zm9v"; "Zm9vYg=="; "Zm9vYmE="; "Zm9vYmFy" ].
Proof. reflexivity. Qed.

Example b64decode_rejects_bad_padding :
  map b64decode [ "Zg="; "Zg=v"; "Z===" ] = [ None; None; None ].
Proof. reflexivity. Qed.

End Base64Facts.

(** ** Strings *)

Section StringFacts.

Lemma append_assoc (a b c : string) : (a +:+ b) +:+ c = a +:+ (b +:+ c).
Proof.
  induction a as [|ch a IH]; [reflexivity|].
  change (String ch ((a +:+ b) +:+ c) = String ch (a +:+ (b +:+ c))).
  now rewrite IH.
Qed.

Lemma append_nil_r (a : string) : a +:+ EmptyString = a.
Proof.
  induction a as [|ch a IH]; [reflexivity|].
  change (String ch (a +:+ EmptyString) = String ch a).
  now rewrite IH.
Qed.

Lemma fstring_cons (p : string) (rest : list string) :
  Py.fstring (p :: rest) = p +:+ Py.fstring rest.
Proof. reflexivity. Qed.

Lemma join_cons2 (sep x y : string) (rest : list string) :
  Py.join sep (x :: y :: rest) = x +:+ sep +:+ Py.join sep (y :: rest).
Proof. reflexivity. Qed.





End StringFacts.

(** ** The formatter *)

Section Formatter.

Variable r : HairAnalysis.

(** The text, cut after the scalp-condition line. *)
Lemma formatted_result_unfold :
  formatted_result r =
    Py.LF +:+ "Hair Analysis Results:" +:+ Py.LF +:+
    Py.LF +:+ ("1. Hair Type: " +:+ hair_type r) +:+
    Py.LF +:+ ("2. Hair Texture: " +:+ hair_texture r) +:+
    Py.LF +:+ ("3. Scalp Condition: " +:+ scalp_condition r) +:+
    Py.LF +:+ "4. Visible Issues:" +:+
    Py.LF +:+ issues_block r +:+
    Py.LF +:+ ("5. Hair Health Score: " +:+ Py.str_int (health_score r) +:+ "/10") +:+
    Py.LF +:+ "6. Recommendations:" +:+
    Py.LF +:+ recommendations_block r +:+ Py.LF.
Proof.
  unfold formatted_result, formatted_with. rewrite !fstring_cons. cbn [Py.fstring].
  rewrite !append_assoc, append_nil_r. reflexivity.
Qed.





End Formatter.


(** The bullet is the three bytes E2 80 A2 of U+2022, between three spaces
    and one. *)
Example bullet_bytes :
  list_byte_of_string (bullet "x")
  = [x20; x20; x20; xe2; x80; xa2; x20; x78].
Proof. reflexivity. Qed.

(** The text of the documented example, line by line. *)
Example formatted_result_sample :
  formatted_result sample =
    Py.join Py.LF
      [ "";
        "Hair Analysis Results:";
        "";
        "1. Hair Type: curly";
        "2. Hair Texture: coarse";
        "3. Scalp Condition: dry";
        "4. Visible Issues:";
        "   • dandruff";
        "5. Hair Health Score: 6/10";
        "6. Recommendations:";
        "   • use moisturizing shampoo";
        "" ].
Proof. reflexivity. Qed.





(** ** The handler, path by path *)

(** ** The client's request loop *)

Section RequestLoop.

Variables (client : OpenAIClient) (request : ParseRequest).

(** The loop sends the same request between once and once more than the
    retries it has left, and its outcome does not depend on the history. *)
Lemma send_with_retries_shape (remaining k : nat) :
  exists (o : Outcome ParsedChatCompletion) (n : nat),
    (1 <= n <= S remaining)%nat /\
    forall tr : Trace,
      send_with_retries client request k remaining tr
      = (o, (tr ++ repeat (RemoteCall request) n)%list).
Proof.
  revert k. induction remaining as [|fewer IH]; intros k.
  - cbn [send_with_retries]. unfold bind, emit, ret, raise.
    destruct (attempt client request k) as [c|[|] e];
      eexists _, 1%nat; (split; [lia | reflexivity]).
  - cbn [send_with_retries]. unfold bind, emit, ret, raise.
    destruct (attempt client request k) as [c|[|] e].
    + eexists _, 1%nat. split; [lia | reflexivity].
    + destruct (IH (S k)) as (o & n & Hn & Hrun).
      exists o, (S n). split; [lia|]. intros tr. rewrite Hrun.
      cbn [repeat]. now rewrite <- List.app_assoc.
    + eexists _, 1%nat. split; [lia | reflexivity].
Qed.

Lemma client_parse_run (tr : Trace) :
  client_parse client request tr
  = (chat_completions_parse client request,
     (tr ++ repeat (RemoteCall request) (requests_sent client request))%list).
Proof.
  unfold chat_completions_parse, requests_sent, client_parse.
  destruct (send_with_retries_shape (max_retries client) 0) as (o & n & _ & Hrun).
  rewrite (Hrun tr), (Hrun []). cbn [fst snd app]. now rewrite repeat_length.
Qed.

Lemma requests_sent_bounds :
  (1 <= requests_sent client request <= S (max_retries client))%nat.
Proof.
  unfold requests_sent, client_parse.
  destruct (send_with_retries_shape (max_retries client) 0) as (o & n & Hn & Hrun).
  rewrite (Hrun []). cbn [snd app]. now rewrite repeat_length.
Qed.

End RequestLoop.

Lemma format_int_within (n : Z) :
  (decimal_digits n <= int_max_str_digits)%nat ->
  format_int n = Return (Py.str_int n).
Proof.
  intros H. unfold format_int.
  destruct (Nat.ltb_spec int_max_str_digits (decimal_digits n)); [lia | reflexivity].
Qed.

Lemma format_int_beyond (n : Z) :
  (int_max_str_digits < decimal_digits n)%nat ->
  format_int n = Raise digit_limit_error.
Proof.
  intros H. unfold format_int.
  destruct (Nat.ltb_spec int_max_str_digits (decimal_digits n)); [reflexivity | lia].
Qed.

(** ** The handler, path by path *)

Section Handler.

Variables (w : World) (client : OpenAIClient) (image : PILImage) (tr : Trace).

Local Ltac run_handler :=
  unfold analyze_hair, try_except, encode_image, first_choice,
    format_parsed, logger_debug, logger_error, emit, bind, lift, ret, raise,
    error_text, error_record, encoded_record.

Local Ltac finish_trace :=
  cbn [Py.fstring]; rewrite ?append_nil_r;
  repeat (rewrite <- List.app_assoc; cbn [app]); reflexivity.

Lemma analyze_hair_encoding_raises (e : PyException) :
  save_jpeg w image = Raise e ->
  analyze_hair w client (Some image) tr
  = (Return (error_text e), (tr ++ [error_record e])%list).
Proof. intros H. run_handler. rewrite H. finish_trace. Qed.

Lemma analyze_hair_call_raises (jpeg : list byte) (e : PyException) :
  save_jpeg w image = Return jpeg ->
  chat_completions_parse client (build_request (Base64.b64encode jpeg)) = Raise e ->
  analyze_hair w client (Some image) tr
  = (Return (error_text e),
     (tr ++ events_before_answer w client image ++ [error_record e])%list).
Proof.
  intros H1 H2. unfold events_before_answer. run_handler.
  rewrite H1, client_parse_run, H2. finish_trace.
Qed.

Lemma analyze_hair_no_choice (jpeg : list byte) (completion : ParsedChatCompletion) :
  save_jpeg w image = Return jpeg ->
  chat_completions_parse client (build_request (Base64.b64encode jpeg))
    = Return completion ->
  choices completion = [] ->
  let e := IndexError "list index out of range" in
  analyze_hair w client (Some image) tr
  = (Return (error_text e),
     (tr ++ events_before_answer w client image ++ [error_record e])%list).
Proof.
  intros H1 H2 H3. unfold events_before_answer. run_handler.
  rewrite H1, client_parse_run, H2, H3. finish_trace.
Qed.

Lemma analyze_hair_not_parsed (jpeg : list byte) (completion : ParsedChatCompletion)
    (choice : Choice) (others : list Choice) :
  save_jpeg w image = Return jpeg ->
  chat_completions_parse client (build_request (Base64.b64encode jpeg))
    = Return completion ->
  choices completion = choice :: others ->
  parsed (message choice) = None ->
  let e := AttributeError "'NoneType' object has no attribute 'hair_type'" in
  analyze_hair w client (Some image) tr
  = (Return (error_text e),
     (tr ++ events_before_answer w client image ++ [error_record e])%list).
Proof.
  intros H1 H2 H3 H4. unfold events_before_answer. run_handler.
  rewrite H1, client_parse_run, H2, H3, H4. finish_trace.
Qed.

Lemma analyze_hair_overlong (jpeg : list byte) (completion : ParsedChatCompletion)
    (choice : Choice) (others : list Choice) (r : HairAnalysis) :
  save_jpeg w image = Return jpeg ->
  chat_completions_parse client (build_request (Base64.b64encode jpeg))
    = Return completion ->
  choices completion = choice :: others ->
  parsed (message choice) = Some r ->
  (int_max_str_digits < decimal_digits (health_score r))%nat ->
  analyze_hair w client (Some image) tr
  = (Return (error_text digit_limit_error),
     (tr ++ events_before_answer w client image ++ [error_record digit_limit_error])%list).
Proof.
  intros H1 H2 H3 H4 H5. unfold events_before_answer. run_handler.
  rewrite H1, client_parse_run, H2, H3, H4, (format_int_beyond _ H5). finish_trace.
Qed.

Lemma analyze_hair_parsed (jpeg : list byte) (completion : ParsedChatCompletion)
    (choice : Choice) (others : list Choice) (r : HairAnalysis) :
  save_jpeg w image = Return jpeg ->
  chat_completions_parse client (build_request (Base64.b64encode jpeg))
    = Return completion ->
  choices completion = choice :: others ->
  parsed (message choice) = Some r ->
  (decimal_digits (health_score r) <= int_max_str_digits)%nat ->
  analyze_hair w client (Some image) tr
  = (Return (formatted_result r), (tr ++ events_before_answer w client image)%list).
Proof.
  intros H1 H2 H3 H4 H5. unfold events_before_answer. run_handler.
  rewrite H1, client_parse_run, H2, H3, H4, (format_int_within _ H5). finish_trace.
Qed.

End Handler.
(** Every submission ends in exactly one of the ways above. *)
Lemma pipeline_cases (w : World) (client : OpenAIClient) (image : PILImage) :
  (exists e, pipeline_failure w client image e) \/
  (exists r, pipeline_result w client image r).
Proof.
  destruct (save_jpeg w image) as [jpeg|e] eqn:Hsave.
  - destruct (chat_completions_parse client (build_request (Base64.b64encode jpeg)))
      as [completion|e] eqn:Hcall.
    + destruct (choices completion) as [|choice others] eqn:Hch.
      * left. eexists. eapply parsing_failure_no_choice; eassumption.
      * destruct (parsed (message choice)) as [r|] eqn:Hp.
        -- destruct (Nat.le_gt_cases (decimal_digits (health_score r))
                       int_max_str_digits) as [Hle | Hgt].
           ++ right. exists r. eapply parsed_result; eassumption.
           ++ left. eexists. eapply formatting_failure; eassumption.
        -- left. eexists. eapply parsing_failure_not_parsed; eassumption.
    + left. exists e. eapply remote_call_failure; eassumption.
  - left. exists e. now apply encoding_failure.
Qed.

Lemma analyze_hair_failure (w : World) (client : OpenAIClient) (image : PILImage)
    (tr : Trace) (e : PyException) :
  pipeline_failure w client image e ->
  exists events,
    analyze_hair w client (Some image) tr
    = (Return (error_text e), (tr ++ events ++ [error_record e])%list).
Proof.
  intros [e' H | jpeg e' H1 H2 | jpeg c H1 H2 H3 | jpeg c ch os H1 H2 H3 H4
          | jpeg c ch os r H1 H2 H3 H4 H5].
  - exists []. now apply analyze_hair_encoding_raises.
  - eexists. eapply analyze_hair_call_raises; eassumption.
  - eexists. eapply analyze_hair_no_choice; eassumption.
  - eexists. eapply analyze_hair_not_parsed; eassumption.
  - eexists. eapply analyze_hair_overlong; eassumption.
Qed.

Lemma analyze_hair_result (w : World) (client : OpenAIClient) (image : PILImage)
    (tr : Trace) (r : HairAnalysis) :
  pipeline_result w client image r ->
  exists tr', analyze_hair w client (Some image) tr = (Return (formatted_result r), tr').
Proof.
  intros [jpeg c ch os r' H1 H2 H3 H4 H5]. eexists.
  eapply analyze_hair_parsed; eassumption.
Qed.

(** The handler always returns a text. *)
Lemma analyze_hair_returns (w : World) (client : OpenAIClient)
    (image : option PILImage) (tr : Trace) :
  exists shown tr', analyze_hair w client image tr = (Return shown, tr').
Proof.
  destruct image as [image|]; [|now eexists _, _].
  destruct (pipeline_cases w client image) as [[e He] | [r Hr]].
  - destruct (analyze_hair_failure w client image tr e He) as [events Hrun].
    eauto.
  - destruct (analyze_hair_result w client image tr r Hr) as [tr' Hrun]. eauto.
Qed.

(** The serving loop shows one text per submission and never stops early. *)
Lemma serve_returns (w : World) (client : OpenAIClient)
    (submissions : list (option PILImage)) (tr : Trace) :
  exists shown tr',
    serve w client submissions tr = (Return shown, tr') /\
    length shown = length submissions.
Proof.
  revert tr. induction submissions as [|image rest IH]; intros tr.
  - now exists [], tr.
  - destruct (analyze_hair_returns w client image tr) as (s & tr1 & Hs).
    destruct (IH tr1) as (shown & tr2 & Hrest & Hlen).
    exists (s :: shown), tr2. cbn [serve]. unfold bind, ret.
    rewrite Hs, Hrest. split; [reflexivity | cbn [length]; now rewrite Hlen].
Qed.

Lemma serve_cons (w : World) (client : OpenAIClient) (image : option PILImage)
    (rest : list (option PILImage)) (tr tr1 : Trace) (s : string) :
  analyze_hair w client image tr = (Return s, tr1) ->
  exists shown tr2,
    serve w client (image :: rest) tr = (Return (s :: shown), tr2) /\
    length shown = length rest.
Proof.
  intros Hs. destruct (serve_returns w client rest tr1) as (shown & tr2 & Hrest & Hlen).
  exists shown, tr2. cbn [serve]. unfold bind, ret. rewrite Hs, Hrest. now split.
Qed.

Lemma remote_calls_app (a b : Trace) :
  remote_calls (a ++ b)%list = (remote_calls a ++ remote_calls b)%list.
Proof.
  induction a as [|ev a IH]; [reflexivity|].
  destruct ev; cbn [remote_calls app]; now rewrite IH.
Qed.

(** C1. Without an image the handler returns the fixed invitation to upload
    one and leaves the trace as it found it: no request is built, the client
    is not called, nothing is logged. *)
Theorem analyze_hair_without_image (w : World) (client : OpenAIClient) (tr : Trace) :
  analyze_hair w client None tr = (Return "Please upload an image for analysis.", tr)
  /\ remote_calls (snd (analyze_hair w client None tr)) = remote_calls tr.
Proof. split; reflexivity. Qed.

(** C2. Whatever fails in the pipeline (encoding, remote call, reading the
    parsed answer), the handler catches the exception, logs it, and returns
    "Error analyzing image: " followed by [str(e)]; nothing is raised to the
    caller, and the serving loop goes on with the remaining submissions. *)
Theorem analyze_hair_catches_pipeline_failure (w : World) (client : OpenAIClient)
    (image : PILImage) (tr : Trace) (e : PyException) :
  pipeline_failure w client image e ->
  (exists tr',
     analyze_hair w client (Some image) tr
     = (Return ("Error analyzing image: " +:+ str_exc e), tr') /\
     In (Logged ERROR ("Error during analysis: " +:+ str_exc e) (Some e)) tr') /\
  (forall rest : list (option PILImage),
     exists shown tr'',
       serve w client (Some image :: rest) tr
       = (Return (("Error analyzing image: " +:+ str_exc e) :: shown), tr'') /\
       length shown = length rest).
Proof.
  intros Hfail.
  destruct (analyze_hair_failure w client image tr e Hfail) as [events Hrun].
  split.
  - eexists. split; [exact Hrun|].
    apply in_or_app. right. apply in_or_app. right. now left.
  - intros rest. eapply serve_cons. exact Hrun.
Qed.

Lemma analyze_hair_catches_pipeline_failure_witness :
  (exists tr',
     analyze_hair (mock_world offline_client) offline_client (Some rgb_pixel) []
     = (Return ("Error analyzing image: " +:+ "Connection error."), tr') /\
     In (Logged ERROR ("Error during analysis: " +:+ "Connection error.")
           (Some (APIConnectionError "Connection error."))) tr') /\
  (forall rest : list (option PILImage),
     exists shown tr'',
       serve (mock_world offline_client) offline_client (Some rgb_pixel :: rest) []
       = (Return (("Error analyzing image: " +:+ "Connection error.") :: shown), tr'') /\
       length shown = length rest).
Proof.
  apply (analyze_hair_catches_pipeline_failure (mock_world offline_client)
           offline_client rgb_pixel [] (APIConnectionError "Connection error.")).
  eapply remote_call_failure; reflexivity.
Defined.




Lemma analyze_hair_hands_back (w : World) (client : OpenAIClient) (image : PILImage)
    (tr : Trace) (r : HairAnalysis) :
  hands_back w client image r ->
  fst (analyze_hair w client (Some image) tr) = Return (shown_for r).
Proof.
  intros (jpeg & completion & choice & others & H1 & H2 & H3 & H4).
  unfold shown_for.
  destruct (Nat.ltb_spec int_max_str_digits (decimal_digits (health_score r)))
    as [Hgt | Hle].
  - now rewrite (analyze_hair_overlong w client image tr jpeg completion choice
                   others r H1 H2 H3 H4 Hgt).
  - now rewrite (analyze_hair_parsed w client image tr jpeg completion choice
                   others r H1 H2 H3 H4 Hle).
Qed.

(** C6. What is shown depends on the result alone: two runs in which the
    client hands back the same result, in whatever worlds, with whatever
    images and histories, show the same text, character for character. It
    is the formatted text of the result or, for a score beyond the digit
    limit, the error text of the failed conversion, both times. *)
Theorem formatting_is_deterministic (w1 w2 : World) (c1 c2 : OpenAIClient)
    (image1 image2 : PILImage) (tr1 tr2 : Trace) (r : HairAnalysis) :
  hands_back w1 c1 image1 r ->
  hands_back w2 c2 image2 r ->
  fst (analyze_hair w1 c1 (Some image1) tr1) = fst (analyze_hair w2 c2 (Some image2) tr2)
  /\ fst (analyze_hair w1 c1 (Some image1) tr1)
     = Return (if (int_max_str_digits <? decimal_digits (health_score r))%nat
               then "Error analyzing image: " +:+ str_exc digit_limit_error
               else formatted_result r).
Proof.
  intros H1 H2.
  rewrite (analyze_hair_hands_back w1 c1 image1 tr1 r H1).
  rewrite (analyze_hair_hands_back w2 c2 image2 tr2 r H2).
  split; reflexivity.
Qed.

Lemma formatting_is_deterministic_witness :
  fst (analyze_hair (mock_world (mock_client sample)) (mock_client sample)
         (Some rgb_pixel) [])
  = fst (analyze_hair (mock_world offline_client) (mock_client sample)
           (Some grey_pixel) [Logged INFO "Starting Hair Analysis Application" None])
  /\ fst (analyze_hair (mock_world (mock_client sample)) (mock_client sample)
            (Some rgb_pixel) [])
     = Return (if (int_max_str_digits <? decimal_digits (health_score sample))%nat
               then "Error analyzing image: " +:+ str_exc digit_limit_error
               else formatted_result sample).
Proof.
  apply formatting_is_deterministic;
    eexists _, _, _, _; repeat split; reflexivity.
Defined.

(** The same holds beyond the digit limit: both runs show the error text. *)
Example overlong_shown_twice :
  fst (analyze_hair (mock_world (mock_client overlong)) (mock_client overlong)
         (Some rgb_pixel) [])
  = fst (analyze_hair (mock_world (mock_client overlong)) (mock_client overlong)
           (Some grey_pixel) [encoded_record])
  /\ shown_for overlong = error_text digit_limit_error.
Proof.
  split.
  - rewrite !(analyze_hair_hands_back _ _ _ _ overlong); [reflexivity | |];
      eexists _, _, _, _; repeat split; reflexivity.
  - vm_compute. reflexivity.
Qed.
Lemma int_of_str_str_int (n : Z) : Py.int_of_str (Py.str_int n) = Some n.
Proof.
  unfold Py.int_of_str, Py.str_int.
  rewrite NilZero.isi.
  - cbn [option_map]. now rewrite DecimalZ.of_to.
  - destruct n as [|p|p]; cbn [Z.to_int]; try discriminate.
    intros [= H]. now apply (DecimalPos.Unsigned.to_uint_nonnil p).
  - destruct n as [|p|p]; cbn [Z.to_int]; try discriminate.
    intros [= H]. now apply (DecimalPos.Unsigned.to_uint_nonnil p).
Qed.

Lemma score_line_occurs (r : HairAnalysis) :
  occurs_as_line ("5. Hair Health Score: " +:+ Py.str_int (health_score r) +:+ "/10")
    (formatted_result r).
Proof.
  rewrite formatted_result_unfold.
  exists (Py.LF +:+ "Hair Analysis Results:" +:+ Py.LF +:+
          Py.LF +:+ ("1. Hair Type: " +:+ hair_type r) +:+
          Py.LF +:+ ("2. Hair Texture: " +:+ hair_texture r) +:+
          Py.LF +:+ ("3. Scalp Condition: " +:+ scalp_condition r) +:+
          Py.LF +:+ "4. Visible Issues:" +:+
          Py.LF +:+ issues_block r),
         ("6. Recommendations:" +:+ Py.LF +:+ recommendations_block r +:+ Py.LF).
  rewrite !append_assoc. reflexivity.
Qed.

(** C7, as stated, fails: a score of 4301 digits is accepted by the data
    model like any other, but the f-string cannot convert it, so no text
    with that score is produced; the handler shows the error text. *)
Lemma overlong_score_is_not_rendered :
  ~ exists text tr', format_parsed (Some overlong) [] = (Return text, tr').
Proof. intros (text & tr' & H). vm_compute in H. discriminate H. Qed.

(** C7, amended. The score is not range-checked: for every integer [n],
    below 1 and above 10 included, no declared field of the model puts a
    bound on it and a result carrying it can be built. When [n] has at most
    4300 digits the f-string evaluates to the text whose score line is
    "5. Hair Health Score: n/10", with [n] printed as it is (reading the
    printed digits back gives [n]). When [n] has more digits the conversion
    raises [ValueError] and no text is produced. *)
Theorem health_score_range_not_enforced (n : Z) (type texture scalp : string)
    (issues recs : list string) (tr : Trace) :
  let r := {| hair_type := type; hair_texture := texture; scalp_condition := scalp;
              visible_issues := issues; health_score := n;
              recommendations := recs |} in
  forallb (fun f => int_constraints_ok f n) HairAnalysis_fields = true /\
  In health_score_field HairAnalysis_fields /\
  health_score r = n /\
  ((decimal_digits n <= 4300)%nat ->
   format_parsed (Some r) tr = (Return (formatted_result r), tr) /\
   occurs_as_line ("5. Hair Health Score: " +:+ Py.str_int n +:+ "/10")
     (formatted_result r) /\
   Py.int_of_str (Py.str_int n) = Some n) /\
  ((4300 < decimal_digits n)%nat ->
   format_parsed (Some r) tr = (Raise digit_limit_error, tr)).
Proof.
  cbv zeta. split; [|split; [|split; [|split]]].
  - reflexivity.
  - cbn. tauto.
  - reflexivity.
  - intros Hle. split; [|split].
    + unfold format_parsed, bind, lift, ret. cbn [health_score].
      now rewrite (format_int_within n Hle).
    + apply (score_line_occurs (Build_HairAnalysis type texture scalp issues n recs)).
    + apply int_of_str_str_int.
  - intros Hgt. unfold format_parsed, bind, lift. cbn [health_score].
    now rewrite (format_int_beyond n Hgt).
Qed.

Lemma health_score_range_not_enforced_witness :
  format_parsed
    (Some {| hair_type := "wavy"; hair_texture := "fine"; scalp_condition := "normal";
             visible_issues := []; health_score := 11; recommendations := [] |}) []
  = (Return (formatted_result
               {| hair_type := "wavy"; hair_texture := "fine";
                  scalp_condition := "normal"; visible_issues := [];
                  health_score := 11; recommendations := [] |}), []) /\
  occurs_as_line ("5. Hair Health Score: " +:+ Py.str_int 11 +:+ "/10")
    (formatted_result
       {| hair_type := "wavy"; hair_texture := "fine"; scalp_condition := "normal";
          visible_issues := []; health_score := 11; recommendations := [] |}) /\
  Py.int_of_str (Py.str_int 11) = Some 11%Z.
Proof.
  apply (proj1 (proj2 (proj2 (proj2
           (health_score_range_not_enforced 11 "wavy" "fine" "normal" [] [] []))))).
  apply Nat.leb_le. vm_compute. reflexivity.
Defined.

(** The scores 0, 11 and -3 are printed as they are. *)
Example out_of_range_scores :
  map (fun n => Py.str_int n +:+ "/10") [0; 11; -3]%Z = ["0/10"; "11/10"; "-3/10"].
Proof. reflexivity. Qed.

(** C8. The one variable the module needs is OPENAI_API_KEY. When neither
    the process environment nor the .env file defines it, loading the module
    raises [TypeError] before any client is built: the program stops there,
    nothing is served or logged. And the assignment of the key raises
    exactly in that case, whatever else the environment holds. *)
Theorem missing_api_key_fails_at_startup (w : World) (dotenv environ : gmap string string) :
  (environ !! "OPENAI_API_KEY" = None ->
   dotenv !! "OPENAI_API_KEY" = None ->
   forall (submissions : list (option PILImage)) (tr : Trace),
     main w dotenv environ submissions tr
     = (Raise (TypeError "str expected, not NoneType"), tr)) /\
  ((environ !! "OPENAI_API_KEY" = None /\ dotenv !! "OPENAI_API_KEY" = None) <->
   set_api_key (load_dotenv dotenv environ)
   = Raise (TypeError "str expected, not NoneType")) /\
  (forall v : string,
     load_dotenv dotenv environ !! "OPENAI_API_KEY" = Some v ->
     set_api_key (load_dotenv dotenv environ) = Return (load_dotenv dotenv environ)).
Proof.
  assert (Habsent : environ !! "OPENAI_API_KEY" = None ->
                    dotenv !! "OPENAI_API_KEY" = None ->
                    set_api_key (load_dotenv dotenv environ)
                    = Raise (TypeError "str expected, not NoneType")).
  { intros He Hd. unfold set_api_key, os_getenv, load_dotenv.
    rewrite (proj2 (lookup_union_None environ dotenv "OPENAI_API_KEY") (conj He Hd)).
    reflexivity. }
  split; [|split].
  - intros He Hd submissions tr.
    unfold main, load_module, bind, lift. now rewrite (Habsent He Hd).
  - split; [intros [He Hd]; now apply Habsent|].
    unfold set_api_key, os_getenv, load_dotenv. intros Hraise.
    apply lookup_union_None.
    destruct ((environ ∪ dotenv) !! "OPENAI_API_KEY"); [discriminate | reflexivity].
  - intros v Hv. unfold set_api_key, os_getenv, os_environ_setitem.
    rewrite Hv. f_equal. now apply insert_id.
Qed.

Lemma missing_api_key_fails_at_startup_witness :
  main (mock_world (mock_client sample)) ∅ {[ "HOME" := "/root" ]} [Some rgb_pixel] []
  = (Raise (TypeError "str expected, not NoneType"), []).
Proof.
  apply (proj1 (missing_api_key_fails_at_startup (mock_world (mock_client sample))
                  ∅ {[ "HOME" := "/root" ]})); reflexivity.
Defined.

(** With the key defined, the same program serves its submissions. *)
Example api_key_present_serves :
  fst (main (mock_world (mock_client healthy)) ∅ {[ "OPENAI_API_KEY" := "sk-test" ]}
         [None; Some rgb_pixel] [])
  = Return ["Please upload an image for analysis."; formatted_result healthy].
Proof. reflexivity. Qed.

Lemma remote_calls_repeat (request : ParseRequest) (n : nat) :
  remote_calls (repeat (RemoteCall request) n) = repeat request n.
Proof. induction n as [|n IH]; [reflexivity | cbn; now rewrite IH]. Qed.






(** The client whose transport is down sends the request three times. *)
Example offline_client_sends_three :
  length (remote_calls (snd (analyze_hair (mock_world offline_client) offline_client
                               (Some rgb_pixel) []))) = 3%nat
  /\ length (remote_calls (snd (analyze_hair (mock_world (mock_client sample))
                                  (mock_client sample) (Some rgb_pixel) []))) = 1%nat.
Proof. split; reflexivity. Qed.
(** * Further properties of the code *)

(** ** Lines *)

Section LineFacts.

Lemma append_cons (c : ascii) (a b : string) :
  String c a +:+ b = String c (a +:+ b).
Proof. reflexivity. Qed.

Lemma has_lf_app (a b : string) : has_lf (a +:+ b) = has_lf a || has_lf b.
Proof.
  induction a as [|c a IH]; [reflexivity|].
  rewrite append_cons. cbn [has_lf]. rewrite IH. now rewrite orb_assoc.
Qed.

Lemma split_lf_cons_lf (b : string) : split_lf (Py.LF +:+ b) = EmptyString :: split_lf b.
Proof. reflexivity. Qed.

Lemma split_lf_not_nil (s : string) : split_lf s <> [].
Proof.
  induction s as [|c s IH]; [discriminate|].
  cbn [split_lf]. destruct (Ascii.eqb c lf_char); [discriminate|].
  destruct (split_lf s); discriminate.
Qed.

(** Cutting after a first line that holds no line feed. *)
Lemma split_lf_line (a b : string) :
  has_lf a = false -> split_lf (a +:+ Py.LF +:+ b) = a :: split_lf b.
Proof.
  induction a as [|c a IH]; intros Ha.
  - reflexivity.
  - cbn [has_lf] in Ha. apply orb_false_iff in Ha as [Hc Ha].
    rewrite append_cons. cbn [split_lf]. rewrite Hc, (IH Ha). reflexivity.
Qed.

Lemma split_lf_last (a : string) : has_lf a = false -> split_lf a = [a].
Proof.
  induction a as [|c a IH]; intros Ha; [reflexivity|].
  cbn [has_lf] in Ha. apply orb_false_iff in Ha as [Hc Ha].
  cbn [split_lf]. rewrite Hc, (IH Ha). reflexivity.
Qed.

(** Cutting after a joined block of lines. *)
Lemma split_lf_join (ls : list string) (b : string) :
  ls <> [] ->
  forallb (fun x => negb (has_lf x)) ls = true ->
  split_lf (Py.join Py.LF ls +:+ Py.LF +:+ b) = (ls ++ split_lf b)%list.
Proof.
  induction ls as [|x ls IH]; intros Hne Hfree; [contradiction|].
  cbn [forallb] in Hfree. apply andb_true_iff in Hfree as [Hx Hfree].
  apply negb_true_iff in Hx.
  destruct ls as [|y ls].
  - cbn [Py.join app]. now apply split_lf_line.
  - rewrite join_cons2, !append_assoc, (split_lf_line x _ Hx).
    rewrite IH by (discriminate || assumption). reflexivity.
Qed.

Lemma has_lf_bullet (x : string) : has_lf (bullet x) = has_lf x.
Proof. unfold bullet. now rewrite has_lf_app. Qed.

Lemma forallb_lf_free_bullets (xs : list string) :
  forallb (fun x => negb (has_lf x)) xs = true ->
  forallb (fun x => negb (has_lf x)) (map bullet xs) = true.
Proof.
  induction xs as [|x xs IH]; [reflexivity|].
  cbn [forallb map]. rewrite has_lf_bullet.
  intros H. apply andb_true_iff in H as [Hx Hxs].
  now rewrite Hx, IH.
Qed.

Lemma has_lf_uint (d : Decimal.uint) : has_lf (NilEmpty.string_of_uint d) = false.
Proof. induction d; cbn [NilEmpty.string_of_uint has_lf]; try reflexivity; exact IHd. Qed.

Lemma has_lf_nilzero (d : Decimal.uint) : has_lf (NilZero.string_of_uint d) = false.
Proof. destruct d; first [reflexivity | apply has_lf_uint]. Qed.

Lemma has_lf_str_int (n : Z) : has_lf (Py.str_int n) = false.
Proof.
  unfold Py.str_int, NilZero.string_of_int.
  destruct (Z.to_int n) as [d|d]; [apply has_lf_nilzero|].
  cbn [has_lf]. apply has_lf_nilzero.
Qed.

End LineFacts.

(** ** The text, line by line *)

Section TextLines.

Variable r : HairAnalysis.
Hypothesis Hfree : lf_free r = true.

Lemma lf_free_fields :
  has_lf (hair_type r) = false /\ has_lf (hair_texture r) = false /\
  has_lf (scalp_condition r) = false /\
  forallb (fun x => negb (has_lf x)) (visible_issues r) = true /\
  forallb (fun x => negb (has_lf x)) (recommendations r) = true.
Proof.
  unfold lf_free in Hfree.
  repeat (apply andb_true_iff in Hfree as [Hfree ?]).
  repeat match goal with H : negb _ = true |- _ => apply negb_true_iff in H end.
  auto.
Qed.

Lemma split_lf_recommendations :
  split_lf (recommendations_block r +:+ Py.LF)
  = ((if Py.truthy (recommendations r) then map bullet (recommendations r)
      else [EmptyString]) ++ [EmptyString])%list.
Proof.
  destruct lf_free_fields as (_ & _ & _ & _ & Hrecs).
  unfold recommendations_block.
  rewrite <- (append_nil_r Py.LF).
  destruct (recommendations r) as [|x xs] eqn:E.
  - reflexivity.
  - rewrite split_lf_join; [reflexivity | discriminate |].
    now apply forallb_lf_free_bullets.
Qed.

Lemma split_lf_formatted_result :
  split_lf (formatted_result r)
  = ([ EmptyString; "Hair Analysis Results:"; EmptyString;
       "1. Hair Type: " +:+ hair_type r;
       "2. Hair Texture: " +:+ hair_texture r;
       "3. Scalp Condition: " +:+ scalp_condition r;
       "4. Visible Issues:" ]
     ++ (if Py.truthy (visible_issues r) then map bullet (visible_issues r)
         else [ "   No major issues detected" ])
     ++ [ "5. Hair Health Score: " +:+ Py.str_int (health_score r) +:+ "/10";
          "6. Recommendations:" ]
     ++ (if Py.truthy (recommendations r) then map bullet (recommendations r)
         else [ EmptyString ])
     ++ [ EmptyString ])%list.
Proof.
  destruct lf_free_fields as (Hht & Htx & Hsc & Hvi & _).
  rewrite formatted_result_unfold.
  rewrite split_lf_cons_lf, (split_lf_line "Hair Analysis Results:") by reflexivity.
  rewrite split_lf_cons_lf.
  rewrite (split_lf_line ("1. Hair Type: " +:+ hair_type r))
    by (rewrite has_lf_app, Hht; reflexivity).
  rewrite (split_lf_line ("2. Hair Texture: " +:+ hair_texture r))
    by (rewrite has_lf_app, Htx; reflexivity).
  rewrite (split_lf_line ("3. Scalp Condition: " +:+ scalp_condition r))
    by (rewrite has_lf_app, Hsc; reflexivity).
  rewrite (split_lf_line "4. Visible Issues:") by reflexivity.
  cbn [app]. do 7 f_equal.
  assert (Htail :
    split_lf (("5. Hair Health Score: " +:+ Py.str_int (health_score r) +:+ "/10") +:+
              Py.LF +:+ "6. Recommendations:" +:+ Py.LF +:+
              recommendations_block r +:+ Py.LF)
    = ("5. Hair Health Score: " +:+ Py.str_int (health_score r) +:+ "/10")
      :: "6. Recommendations:"
      :: ((if Py.truthy (recommendations r) then map bullet (recommendations r)
           else [EmptyString]) ++ [EmptyString])%list).
  { rewrite split_lf_line
      by (rewrite !has_lf_app, has_lf_str_int; reflexivity).
    rewrite (split_lf_line "6. Recommendations:") by reflexivity.
    now rewrite split_lf_recommendations. }
  unfold issues_block. destruct (visible_issues r) as [|x xs] eqn:E.
  - cbn [Py.truthy]. rewrite (split_lf_line "   No major issues detected") by reflexivity.
    rewrite Htail. reflexivity.
  - cbn [Py.truthy]. rewrite split_lf_join;
      [| discriminate | now apply forallb_lf_free_bullets].
    rewrite Htail. reflexivity.
Qed.

End TextLines.

(** ** Reading a result back from its text *)

Section Injectivity.

Lemma append_inj_l (a b c : string) : a +:+ b = a +:+ c -> b = c.
Proof.
  induction a as [|ch a IH]; [trivial|].
  rewrite !append_cons. intros [= H]. now apply IH.
Qed.

Lemma length_append (a b : string) :
  String.length (a +:+ b) = (String.length a + String.length b)%nat.
Proof.
  induction a as [|ch a IH]; [reflexivity|].
  rewrite append_cons. cbn [String.length]. now rewrite IH.
Qed.

Lemma append_inj_r (a b c : string) : a +:+ c = b +:+ c -> a = b.
Proof.
  revert b. induction a as [|ch a IH]; intros [|ch' b] H.
  - reflexivity.
  - apply (f_equal String.length) in H. rewrite !length_append in H.
    cbn [String.length] in H. lia.
  - apply (f_equal String.length) in H. rewrite !length_append in H.
    cbn [String.length] in H. lia.
  - rewrite !append_cons in H. injection H as -> H. f_equal. now apply IH.
Qed.

Lemma map_bullet_inj (xs ys : list string) : map bullet xs = map bullet ys -> xs = ys.
Proof.
  revert ys. induction xs as [|x xs IH]; intros [|y ys] H; try discriminate.
  - reflexivity.
  - cbn [map] in H. injection H as Hx H. apply append_inj_l in Hx.
    f_equal; [exact Hx | now apply IH].
Qed.

Lemma str_int_inj (n m : Z) : Py.str_int n = Py.str_int m -> n = m.
Proof.
  intros H. apply (f_equal Py.int_of_str) in H.
  rewrite !int_of_str_str_int in H. now injection H.
Qed.

(** Two runs of indented lines, each closed by a line that is not
    indented, are equal piece by piece. *)
Lemma indented_run_inj (xs ys : list string) (a b : string) (r1 r2 : list string) :
  forallb indented xs = true -> forallb indented ys = true ->
  indented a = false -> indented b = false ->
  (xs ++ a :: r1 = ys ++ b :: r2)%list ->
  xs = ys /\ a = b /\ r1 = r2.
Proof.
  intros Hxs Hys Ha Hb. revert ys Hys.
  induction xs as [|x xs IH]; intros [|y ys] Hys H; cbn [app forallb] in *.
  - injection H as -> ->. auto.
  - injection H as -> _. apply andb_true_iff in Hys as [Hy _]. congruence.
  - injection H as -> _. apply andb_true_iff in Hxs as [Hx _]. congruence.
  - injection H as -> H.
    apply andb_true_iff in Hxs as [_ Hxs]. apply andb_true_iff in Hys as [_ Hys].
    destruct (IH Hxs ys Hys H) as (-> & -> & ->). auto.
Qed.

Lemma indented_bullets (xs : list string) : forallb indented (map bullet xs) = true.
Proof. induction xs as [|x xs IH]; [reflexivity | exact IH]. Qed.

Lemma issue_lines_inj (xs ys : list string) :
  (if Py.truthy xs then map bullet xs else ["   No major issues detected"])
  = (if Py.truthy ys then map bullet ys else ["   No major issues detected"]) ->
  xs = ys.
Proof.
  destruct xs as [|x xs], ys as [|y ys]; cbn [Py.truthy]; intros H.
  - reflexivity.
  - discriminate H.
  - discriminate H.
  - now apply map_bullet_inj.
Qed.

Lemma recommendation_lines_inj (xs ys : list string) :
  (if Py.truthy xs then map bullet xs else [EmptyString])
  = (if Py.truthy ys then map bullet ys else [EmptyString]) ->
  xs = ys.
Proof.
  destruct xs as [|x xs], ys as [|y ys]; cbn [Py.truthy]; intros H.
  - reflexivity.
  - discriminate H.
  - discriminate H.
  - now apply map_bullet_inj.
Qed.

Lemma indented_issue_lines (xs : list string) :
  forallb indented
    (if Py.truthy xs then map bullet xs else ["   No major issues detected"]) = true.
Proof. destruct xs; [reflexivity | apply indented_bullets]. Qed.

End Injectivity.



(** X2. Among results whose fields hold no line feed the text determines
    the result: two such results with the same text are equal, field by
    field. *)
Theorem formatted_result_injective (r1 r2 : HairAnalysis) :
  lf_free r1 = true -> lf_free r2 = true ->
  formatted_result r1 = formatted_result r2 ->
  r1 = r2.
Proof.
  intros H1 H2 Heq. apply (f_equal split_lf) in Heq.
  rewrite (split_lf_formatted_result r1 H1), (split_lf_formatted_result r2 H2) in Heq.
  cbn [app] in Heq.
  injection Heq as Hht Htx Hsc Hrest.
  apply append_inj_l in Hht, Htx, Hsc.
  apply indented_run_inj in Hrest as (Hvi & Hscore & Hrest);
    [| apply indented_issue_lines | apply indented_issue_lines
     | reflexivity | reflexivity ].
  apply issue_lines_inj in Hvi.
  apply append_inj_l, append_inj_r, str_int_inj in Hscore.
  injection Hrest as Hrecs. apply app_inv_tail in Hrecs.
  apply recommendation_lines_inj in Hrecs.
  destruct r1, r2; cbn in *; congruence.
Qed.

Lemma formatted_result_injective_witness : sample = sample.
Proof. apply (formatted_result_injective sample sample); reflexivity. Defined.

(** ** Shape of an encoding *)

Module Base64Shape.
Import Base64.

Lemma length_b64encode_strong (n : nat) (bs : list byte) :
  (length bs <= n)%nat ->
  String.length (b64encode bs) = (4 * ((length bs + 2) / 3))%nat.
Proof.
  revert bs. induction n as [|n IH]; intros bs Hlen.
  - destruct bs; [reflexivity | cbn [length] in Hlen; lia].
  - destruct bs as [|a [|b [|c rest]]]; try reflexivity.
    cbn [b64encode String.length length] in *.
    rewrite IH by lia.
    replace (S (S (S (length rest))) + 2)%nat with ((length rest + 2) + 1 * 3)%nat by lia.
    rewrite Nat.div_add by lia. lia.
Qed.

Lemma length_b64encode (bs : list byte) :
  String.length (b64encode bs) = (4 * ((length bs + 2) / 3))%nat.
Proof. apply (length_b64encode_strong (length bs)). lia. Qed.

Lemma is_base64_char_sextet (k g : N) :
  is_base64_char (char_of_sextet (sextet k g)) = true.
Proof.
  unfold is_base64_char.
  now rewrite (Base64Facts.sextet_of_char_of_sextet _ (Base64Facts.sextet_lt k g)).
Qed.

Lemma b64encode_chars_strong (n : nat) (bs : list byte) :
  (length bs <= n)%nat -> string_forallb is_base64_char (b64encode bs) = true.
Proof.
  revert bs. induction n as [|n IH]; intros bs Hlen.
  - destruct bs; [reflexivity | cbn [length] in Hlen; lia].
  - destruct bs as [|a [|b [|c rest]]]; cbn [b64encode string_forallb];
      rewrite ?is_base64_char_sextet; try reflexivity.
    cbn [length] in Hlen. rewrite IH by lia. reflexivity.
Qed.

Lemma b64encode_chars (bs : list byte) :
  string_forallb is_base64_char (b64encode bs) = true.
Proof. apply (b64encode_chars_strong (length bs)). lia. Qed.

Lemma b64encode_inj (a b : list byte) : b64encode a = b64encode b -> a = b.
Proof.
  intros H. apply (f_equal b64decode) in H.
  rewrite !Base64Facts.b64decode_b64encode in H. now injection H.
Qed.

End Base64Shape.

(** X4. The text [encode_image] returns for an accepted image is padded
    base64: its length is four characters for every three bytes of the
    JPEG file, rounded up, and each character is a letter, a digit, "+",
    "/" or the padding "=". *)
Theorem encode_image_shape (w : World) (image : PILImage) (jpeg : list byte)
    (tr : Trace) :
  save_jpeg w image = Return jpeg ->
  exists encoded,
    encode_image w image tr = (Return encoded, tr) /\
    String.length encoded = (4 * ((length jpeg + 2) / 3))%nat /\
    string_forallb is_base64_char encoded = true.
Proof.
  intros Hsave. exists (Base64.b64encode jpeg). split; [|split].
  - unfold encode_image, bind, lift, ret. now rewrite Hsave.
  - apply Base64Shape.length_b64encode.
  - apply Base64Shape.b64encode_chars.
Qed.

Lemma encode_image_shape_witness :
  exists encoded,
    encode_image (mock_world offline_client) rgb_pixel [] = (Return encoded, []) /\
    String.length encoded = (4 * ((7 + 2) / 3))%nat /\
    string_forallb is_base64_char encoded = true.
Proof.
  apply (encode_image_shape (mock_world offline_client) rgb_pixel
           [xff; xd8; x10; x20; x30; xff; xd9]).
  reflexivity.
Defined.

(** X5. The request tells the images apart by their JPEG bytes: two
    accepted images lead to the same request exactly when the writer
    produced the same file for both. *)
Theorem request_identifies_jpeg (w : World) (image1 image2 : PILImage)
    (jpeg1 jpeg2 : list byte) :
  save_jpeg w image1 = Return jpeg1 ->
  save_jpeg w image2 = Return jpeg2 ->
  (request_of w (Some image1) = request_of w (Some image2) <-> jpeg1 = jpeg2).
Proof.
  intros H1 H2. unfold request_of. rewrite H1, H2. split.
  - unfold build_request. intros [= H]. cbn [Py.fstring] in H.
    rewrite !append_nil_r in H.
    apply append_inj_l in H. now apply Base64Shape.b64encode_inj.
  - now intros ->.
Qed.

Lemma request_identifies_jpeg_witness :
  request_of (mock_world offline_client) (Some rgb_pixel)
  = request_of (mock_world offline_client) (Some grey_pixel)
  <-> [xff; xd8; x10; x20; x30; xff; xd9] = [xff; xd8; x80; xff; xd9].
Proof.
  apply (request_identifies_jpeg (mock_world offline_client) rgb_pixel grey_pixel);
    reflexivity.
Defined.

(** The two sample images are told apart. *)
Example sample_images_differ :
  request_of (mock_world offline_client) (Some rgb_pixel)
  <> request_of (mock_world offline_client) (Some grey_pixel).
Proof. intros H. vm_compute in H. discriminate H. Qed.

(** ** Elements that hold a line feed *)

Section NoEscaping.

Lemma join_cons_nonempty (sep x : string) (rest : list string) :
  rest <> [] -> Py.join sep (x :: rest) = x +:+ sep +:+ Py.join sep rest.
Proof. destruct rest; [contradiction | reflexivity]. Qed.

Lemma bullet_app (x y : string) : bullet (x +:+ y) = bullet x +:+ y.
Proof. unfold bullet. now rewrite append_assoc. Qed.

(** An element made of two bulleted lines joins like two elements. *)
Lemma join_bullets_merged (before after : list string) (x y : string) :
  Py.join Py.LF (map bullet (before ++ (x +:+ Py.LF +:+ bullet y) :: after))
  = Py.join Py.LF (map bullet (before ++ x :: y :: after)).
Proof.
  induction before as [|b before IH].
  - cbn [app map]. rewrite bullet_app. destruct after as [|a after].
    + reflexivity.
    + cbn [map]. rewrite !join_cons2, !append_assoc. reflexivity.
  - cbn [app map].
    rewrite !join_cons_nonempty
      by (rewrite map_app; destruct (map bullet before); discriminate).
    now rewrite IH.
Qed.

Lemma truthy_app_cons {A} (before : list A) (x : A) (after : list A) :
  Py.truthy (before ++ x :: after) = true.
Proof. destruct before; reflexivity. Qed.

End NoEscaping.

(** X3. List elements are not escaped: an issue (or a recommendation) that
    holds a line feed followed by a bullet and a text [y] is shown exactly
    as two elements would be, the part before the line feed and [y]. *)
Theorem line_feed_in_element_reads_as_two (type texture scalp : string) (n : Z)
    (before after others : list string) (x y : string) :
  formatted_result
    {| hair_type := type; hair_texture := texture; scalp_condition := scalp;
       visible_issues := before ++ (x +:+ Py.LF +:+ bullet y) :: after;
       health_score := n; recommendations := others |}
  = formatted_result
      {| hair_type := type; hair_texture := texture; scalp_condition := scalp;
         visible_issues := before ++ x :: y :: after;
         health_score := n; recommendations := others |}
  /\
  formatted_result
    {| hair_type := type; hair_texture := texture; scalp_condition := scalp;
       visible_issues := others; health_score := n;
       recommendations := before ++ (x +:+ Py.LF +:+ bullet y) :: after |}
  = formatted_result
      {| hair_type := type; hair_texture := texture; scalp_condition := scalp;
         visible_issues := others; health_score := n;
         recommendations := before ++ x :: y :: after |}.
Proof.
  split.
  - rewrite !formatted_result_unfold.
    unfold issues_block, recommendations_block.
    cbn [hair_type hair_texture scalp_condition visible_issues health_score
         recommendations].
    rewrite !truthy_app_cons. change (Py.chr 10) with Py.LF.
    now rewrite (join_bullets_merged before after x y).
  - rewrite !formatted_result_unfold.
    unfold issues_block, recommendations_block.
    cbn [hair_type hair_texture scalp_condition visible_issues health_score
         recommendations].
    change (Py.chr 10) with Py.LF.
    now rewrite (join_bullets_merged before after x y).
Qed.

(** ** Runs of the handler *)

Section HandlerRuns.

Variables (w : World) (client : OpenAIClient).

Lemma analyze_hair_failure_run (image : PILImage) (tr : Trace) (e : PyException) :
  pipeline_failure w client image e ->
  analyze_hair w client (Some image) tr
  = (Return (error_text e),
     (tr ++ events_before_answer w client image ++ [error_record e])%list).
Proof.
  intros [e' H | jpeg e' H1 H2 | jpeg c H1 H2 H3 | jpeg c ch os H1 H2 H3 H4
          | jpeg c ch os r H1 H2 H3 H4 H5].
  - unfold events_before_answer. rewrite H. now apply analyze_hair_encoding_raises.
  - eapply analyze_hair_call_raises; eassumption.
  - eapply analyze_hair_no_choice; eassumption.
  - eapply analyze_hair_not_parsed; eassumption.
  - eapply analyze_hair_overlong; eassumption.
Qed.

Lemma analyze_hair_result_run (image : PILImage) (tr : Trace) (r : HairAnalysis) :
  pipeline_result w client image r ->
  analyze_hair w client (Some image) tr
  = (Return (formatted_result r), (tr ++ events_before_answer w client image)%list).
Proof.
  intros [jpeg c ch os r' H1 H2 H3 H4 H5].
  eapply analyze_hair_parsed; eassumption.
Qed.

Lemma logged_at_calls (level : LogLevel) (request : ParseRequest) (n : nat) :
  logged_at level (repeat (RemoteCall request) n) = [].
Proof. induction n as [|n IH]; [reflexivity | exact IH]. Qed.

Lemma logged_at_app (level : LogLevel) (a b : Trace) :
  logged_at level (a ++ b)%list = (logged_at level a ++ logged_at level b)%list.
Proof.
  induction a as [|ev a IH]; [reflexivity|].
  destruct ev as [l msg exc|req]; cbn [logged_at app];
    [destruct (level_eqb l level)|]; cbn [app]; now rewrite IH.
Qed.

Lemma remote_calls_before_answer (image : PILImage) :
  remote_calls (events_before_answer w client image) = requests_for w client (Some image).
Proof.
  unfold events_before_answer, requests_for, request_of.
  destruct (save_jpeg w image); [|reflexivity].
  cbn [remote_calls encoded_record flat_map].
  now rewrite remote_calls_repeat, List.app_nil_r.
Qed.

Lemma logged_info_before_answer (image : PILImage) :
  logged_at INFO (events_before_answer w client image) = [].
Proof.
  unfold events_before_answer. destruct (save_jpeg w image); [|reflexivity].
  cbn [logged_at encoded_record level_eqb]. apply logged_at_calls.
Qed.

Lemma logged_error_before_answer (image : PILImage) :
  logged_at ERROR (events_before_answer w client image) = [].
Proof.
  unfold events_before_answer. destruct (save_jpeg w image); [|reflexivity].
  cbn [logged_at encoded_record level_eqb]. apply logged_at_calls.
Qed.

Lemma logged_debug_before_answer (image : PILImage) (jpeg : list byte) :
  save_jpeg w image = Return jpeg ->
  logged_at DEBUG (events_before_answer w client image)
  = ["Successfully encoded image to base64"].
Proof.
  intros Hsave. unfold events_before_answer. rewrite Hsave.
  cbn [logged_at encoded_record level_eqb]. now rewrite logged_at_calls.
Qed.

(** The calls of one run: those made before, then the requests of the
    submission. *)
Lemma analyze_hair_calls (submission : option PILImage) (tr : Trace) :
  remote_calls (snd (analyze_hair w client submission tr))
  = (remote_calls tr ++ requests_for w client submission)%list.
Proof.
  destruct submission as [image|]; [|cbn; now rewrite List.app_nil_r].
  destruct (pipeline_cases w client image) as [[e He] | [r Hr]].
  - rewrite (analyze_hair_failure_run image tr e He). cbn [snd].
    rewrite !remote_calls_app, remote_calls_before_answer. cbn [remote_calls error_record].
    now rewrite List.app_nil_r.
  - rewrite (analyze_hair_result_run image tr r Hr). cbn [snd].
    now rewrite remote_calls_app, remote_calls_before_answer.
Qed.

Lemma analyze_hair_logged_info (submission : option PILImage) (tr : Trace) :
  logged_at INFO (snd (analyze_hair w client submission tr)) = logged_at INFO tr.
Proof.
  destruct submission as [image|]; [|reflexivity].
  destruct (pipeline_cases w client image) as [[e He] | [r Hr]].
  - rewrite (analyze_hair_failure_run image tr e He). cbn [snd].
    rewrite !logged_at_app, logged_info_before_answer. cbn. now rewrite List.app_nil_r.
  - rewrite (analyze_hair_result_run image tr r Hr). cbn [snd].
    rewrite logged_at_app, logged_info_before_answer. now rewrite List.app_nil_r.
Qed.

(** One step of the serving loop. *)
Lemma serve_step (image : option PILImage) (rest : list (option PILImage))
    (tr tr1 : Trace) (s : string) :
  analyze_hair w client image tr = (Return s, tr1) ->
  exists shown,
    serve w client (image :: rest) tr = (Return (s :: shown), snd (serve w client rest tr1)) /\
    fst (serve w client rest tr1) = Return shown.
Proof.
  intros Hs. destruct (serve_returns w client rest tr1) as (shown & tr2 & Hrest & _).
  exists shown. cbn [serve]. unfold bind, ret. rewrite Hs, Hrest. now split.
Qed.

Lemma serve_calls (submissions : list (option PILImage)) (tr : Trace) :
  remote_calls (snd (serve w client submissions tr))
  = (remote_calls tr ++ flat_map (requests_for w client) submissions)%list.
Proof.
  revert tr. induction submissions as [|image rest IH]; intros tr.
  - cbn. now rewrite List.app_nil_r.
  - destruct (analyze_hair_returns w client image tr) as (s & tr1 & Hs).
    destruct (serve_step image rest tr tr1 s Hs) as (shown & -> & _).
    cbn [snd flat_map]. rewrite IH.
    replace tr1 with (snd (analyze_hair w client image tr)) by now rewrite Hs.
    rewrite analyze_hair_calls. now rewrite List.app_assoc.
Qed.

Lemma serve_logged_info (submissions : list (option PILImage)) (tr : Trace) :
  logged_at INFO (snd (serve w client submissions tr)) = logged_at INFO tr.
Proof.
  revert tr. induction submissions as [|image rest IH]; intros tr; [reflexivity|].
  destruct (analyze_hair_returns w client image tr) as (s & tr1 & Hs).
  destruct (serve_step image rest tr tr1 s Hs) as (shown & -> & _).
  cbn [snd]. rewrite IH.
  replace tr1 with (snd (analyze_hair w client image tr)) by now rewrite Hs.
  apply analyze_hair_logged_info.
Qed.

(** A submission without image is answered, at its own position, by the
    invitation to upload one. *)
Lemma serve_lookup_no_image (submissions : list (option PILImage)) (tr : Trace)
    (shown : list string) (i : nat) :
  fst (serve w client submissions tr) = Return shown ->
  submissions !! i = Some None ->
  shown !! i = Some "Please upload an image for analysis.".
Proof.
  revert tr shown i. induction submissions as [|image rest IH]; intros tr shown i Hrun Hi.
  - discriminate Hi.
  - destruct (analyze_hair_returns w client image tr) as (s & tr1 & Hs).
    destruct (serve_step image rest tr tr1 s Hs) as (others & Hstep & Hrest).
    rewrite Hstep in Hrun. cbn [fst] in Hrun. injection Hrun as <-.
    destruct i as [|i].
    + cbn in Hi. injection Hi as ->. cbn in Hs. now injection Hs as <- _.
    + cbn in Hi |- *. now apply (IH tr1).
Qed.

Lemma Return_inj {A} (a b : A) : Return a = Return b -> a = b.
Proof. now intros [= ->]. Qed.

Lemma formatted_result_first_char (r : HairAnalysis) :
  exists rest, formatted_result r = String lf_char rest.
Proof. rewrite formatted_result_unfold. eexists. reflexivity. Qed.

Lemma error_text_first_char (e : PyException) :
  exists rest, error_text e = String "E"%char rest.
Proof. eexists. reflexivity. Qed.

Lemma formatted_result_not_error_text (r : HairAnalysis) (e : PyException) :
  formatted_result r <> error_text e.
Proof.
  destruct (formatted_result_first_char r) as [a ->].
  destruct (error_text_first_char e) as [b ->]. discriminate.
Qed.

End HandlerRuns.

(** X6. What one run of the handler logs. A failure of the pipeline (a
    score too long to convert included) adds exactly one ERROR record,
    "Error during analysis: " followed by [str(e)]; a run that obtains a
    result and formats it adds none. The DEBUG record
    "Successfully encoded image to base64" is added exactly when the writer
    accepted the image, whether or not the call then succeeds. No INFO
    record is ever added. *)
Theorem analyze_hair_log_records (w : World) (client : OpenAIClient)
    (image : PILImage) (tr : Trace) :
  (forall e : PyException,
     pipeline_failure w client image e ->
     logged_at ERROR (snd (analyze_hair w client (Some image) tr))
     = (logged_at ERROR tr ++ ["Error during analysis: " +:+ str_exc e])%list) /\
  (forall r : HairAnalysis,
     pipeline_result w client image r ->
     logged_at ERROR (snd (analyze_hair w client (Some image) tr))
     = logged_at ERROR tr) /\
  (forall jpeg : list byte,
     save_jpeg w image = Return jpeg ->
     logged_at DEBUG (snd (analyze_hair w client (Some image) tr))
     = (logged_at DEBUG tr ++ ["Successfully encoded image to base64"])%list) /\
  (forall e : PyException,
     save_jpeg w image = Raise e ->
     logged_at DEBUG (snd (analyze_hair w client (Some image) tr))
     = logged_at DEBUG tr) /\
  logged_at INFO (snd (analyze_hair w client (Some image) tr)) = logged_at INFO tr.
Proof.
  split; [|split; [|split; [|split]]].
  - intros e He. rewrite (analyze_hair_failure_run w client image tr e He).
    cbn [snd]. rewrite !logged_at_app, logged_error_before_answer. reflexivity.
  - intros r Hr. rewrite (analyze_hair_result_run w client image tr r Hr).
    cbn [snd]. rewrite logged_at_app, logged_error_before_answer.
    apply List.app_nil_r.
  - intros jpeg Hsave.
    destruct (pipeline_cases w client image) as [[e He] | [r Hr]].
    + rewrite (analyze_hair_failure_run w client image tr e He). cbn [snd].
      rewrite !logged_at_app, (logged_debug_before_answer w client image jpeg Hsave).
      cbn. reflexivity.
    + rewrite (analyze_hair_result_run w client image tr r Hr). cbn [snd].
      now rewrite logged_at_app, (logged_debug_before_answer w client image jpeg Hsave).
  - intros e Hsave.
    rewrite (analyze_hair_encoding_raises w client image tr e Hsave).
    cbn [snd]. rewrite logged_at_app. cbn. apply List.app_nil_r.
  - apply analyze_hair_logged_info.
Qed.

Lemma analyze_hair_log_records_witness :
  logged_at ERROR (snd (analyze_hair (mock_world offline_client) offline_client
                          (Some rgb_pixel) []))
  = ["Error during analysis: " +:+ "Connection error."].
Proof.
  apply (proj1 (analyze_hair_log_records (mock_world offline_client) offline_client
                  rgb_pixel [])
           (APIConnectionError "Connection error.")).
  eapply remote_call_failure; reflexivity.
Defined.

(** X7. The text tells how the run ended. For an image, an error text is
    shown exactly when the pipeline failed (a score too long to convert
    included) and a formatted result exactly when the client handed one
    back and its score could be converted; no formatted result is an error text,
    whatever the fields hold, and neither is the invitation shown when
    there is no image. *)
Theorem shown_text_tells_outcome (w : World) (client : OpenAIClient)
    (image : PILImage) (tr : Trace) :
  ((exists e, fst (analyze_hair w client (Some image) tr) = Return (error_text e))
   <-> exists e, pipeline_failure w client image e) /\
  ((exists r, fst (analyze_hair w client (Some image) tr) = Return (formatted_result r))
   <-> exists r, pipeline_result w client image r) /\
  (forall (r : HairAnalysis) (e : PyException),
     formatted_result r <> error_text e /\
     formatted_result r <> "Please upload an image for analysis." /\
     error_text e <> "Please upload an image for analysis.").
Proof.
  split; [|split].
  - split.
    + intros [e Hshown].
      destruct (pipeline_cases w client image) as [Hfail | [r Hr]]; [exact Hfail|].
      rewrite (analyze_hair_result_run w client image tr r Hr) in Hshown.
      cbn [fst] in Hshown. apply Return_inj in Hshown.
      now apply formatted_result_not_error_text in Hshown.
    + intros [e He]. exists e.
      now rewrite (analyze_hair_failure_run w client image tr e He).
  - split.
    + intros [r Hshown].
      destruct (pipeline_cases w client image) as [[e He] | Hres]; [|exact Hres].
      rewrite (analyze_hair_failure_run w client image tr e He) in Hshown.
      cbn [fst] in Hshown. apply Return_inj in Hshown. symmetry in Hshown.
      now apply formatted_result_not_error_text in Hshown.
    + intros [r Hr]. exists r.
      now rewrite (analyze_hair_result_run w client image tr r Hr).
  - intros r e. split; [apply formatted_result_not_error_text|].
    destruct (formatted_result_first_char r) as [a ->].
    destruct (error_text_first_char e) as [b ->]. split; discriminate.
Qed.

(** X8. Calling the handler on one submission after the other sends, in
    the order of the submissions, the request of each image the writer
    accepts, once per attempt of the client, and nothing for the others;
    so a session sends at most [1 + max_retries] requests per
    submission. *)
Theorem serve_remote_calls (w : World) (client : OpenAIClient)
    (submissions : list (option PILImage)) (tr : Trace) :
  remote_calls (snd (serve w client submissions tr))
  = (remote_calls tr ++ flat_map (requests_for w client) submissions)%list /\
  (length (remote_calls (snd (serve w client submissions tr)))
   <= length (remote_calls tr) + (1 + max_retries client) * length submissions)%nat.
Proof.
  rewrite serve_calls. split; [reflexivity|].
  rewrite length_app. apply Nat.add_le_mono_l.
  induction submissions as [|s rest IH]; [cbn; lia|].
  cbn [flat_map length]. rewrite length_app.
  assert (length (requests_for w client s) <= 1 + max_retries client)%nat.
  { unfold requests_for, request_of.
    destruct s as [image|]; [destruct (save_jpeg w image) as [jpeg|e]|];
      cbn [flat_map length app]; try lia.
    rewrite List.app_nil_r, repeat_length.
    apply (requests_sent_bounds client (build_request (Base64.b64encode jpeg))). }
  lia.
Qed.

(** Three submissions to a client that is down: the accepted image costs
    three requests, the refused and the absent one none. *)
Example session_with_offline_client :
  length (remote_calls (snd (serve (mock_world offline_client) offline_client
                               [Some rgb_pixel; Some rgba_pixel; None] []))) = 3%nat.
Proof. reflexivity. Qed.

(** X9. Once the key is defined and the client is built, the program logs
    its one INFO record and then shows one text per submission, never
    raising; a submission without image gets the invitation at its own
    position. *)
Theorem main_serves_every_submission (w : World) (dotenv environ : gmap string string)
    (submissions : list (option PILImage)) (tr : Trace) (v : string) (c : OpenAIClient) :
  load_dotenv dotenv environ !! "OPENAI_API_KEY" = Some v ->
  OpenAI w (load_dotenv dotenv environ) = Return c ->
  exists shown tr',
    main w dotenv environ submissions tr = (Return shown, tr') /\
    length shown = length submissions /\
    logged_at INFO tr'
    = (logged_at INFO tr ++ ["Starting Hair Analysis Application"])%list /\
    (forall i : nat,
       submissions !! i = Some None ->
       shown !! i = Some "Please upload an image for analysis.").
Proof.
  intros Hkey Hclient.
  assert (Hset : set_api_key (load_dotenv dotenv environ)
                 = Return (load_dotenv dotenv environ)).
  { unfold set_api_key, os_getenv, os_environ_setitem. rewrite Hkey.
    f_equal. now apply insert_id. }
  set (tr0 := (tr ++ [Logged INFO "Starting Hair Analysis Application" None])%list).
  destruct (serve_returns w c submissions tr0) as (shown & tr' & Hserve & Hlen).
  exists shown, tr'.
  assert (Hmain : main w dotenv environ submissions tr = (Return shown, tr')).
  { unfold main, load_module, logger_info, emit, bind, lift, ret.
    rewrite Hset, Hclient. cbn [client]. exact Hserve. }
  split; [exact Hmain|]. split; [exact Hlen|]. split.
  - replace tr' with (snd (serve w c submissions tr0)) by now rewrite Hserve.
    rewrite serve_logged_info. unfold tr0. now rewrite logged_at_app.
  - intros i Hi. apply (serve_lookup_no_image w c submissions tr0); [|exact Hi].
    now rewrite Hserve.
Qed.

Lemma main_serves_every_submission_witness :
  exists shown tr',
    main (mock_world (mock_client healthy)) ∅ {[ "OPENAI_API_KEY" := "sk-test" ]}
      [None; Some rgb_pixel] [] = (Return shown, tr') /\
    length shown = length [None; Some rgb_pixel] /\
    logged_at INFO tr'
    = (logged_at INFO [] ++ ["Starting Hair Analysis Application"])%list /\
    (forall i : nat,
       [None; Some rgb_pixel] !! i = Some None ->
       shown !! i = Some "Please upload an image for analysis.").
Proof.
  apply (main_serves_every_submission (mock_world (mock_client healthy)) ∅
           {[ "OPENAI_API_KEY" := "sk-test" ]} [None; Some rgb_pixel] []
           "sk-test" (mock_client healthy)); reflexivity.
Defined.

(** X10. When the key is defined but [OpenAI()] raises, loading the module
    raises that exception: the program stops before its INFO record and
    serves nothing. *)
Theorem client_construction_failure_stops_startup (w : World)
    (dotenv environ : gmap string string) (submissions : list (option PILImage))
    (tr : Trace) (v : string) (e : PyException) :
  load_dotenv dotenv environ !! "OPENAI_API_KEY" = Some v ->
  OpenAI w (load_dotenv dotenv environ) = Raise e ->
  main w dotenv environ submissions tr = (Raise e, tr).
Proof.
  intros Hkey Hclient.
  unfold main, load_module, bind, lift, set_api_key, os_getenv, os_environ_setitem.
  rewrite Hkey. rewrite (insert_id _ _ _ Hkey). now rewrite Hclient.
Qed.

Lemma client_construction_failure_stops_startup_witness :
  main {| save_jpeg := mock_save_jpeg;
          OpenAI := fun _ => Raise (TypeError "unexpected proxy setting") |}
    ∅ {[ "OPENAI_API_KEY" := "sk-test" ]} [Some rgb_pixel] []
  = (Raise (TypeError "unexpected proxy setting"), []).
Proof.
  apply (client_construction_failure_stops_startup _ ∅
           {[ "OPENAI_API_KEY" := "sk-test" ]} [Some rgb_pixel] [] "sk-test");
    reflexivity.
Defined.

(** X11. The environment the client is built from: every variable of the
    process keeps its value, the .env file only fills in the variables the
    process does not define, and assigning the key changes nothing. *)
Theorem load_module_environment (w : World) (dotenv environ : gmap string string)
    (tr tr' : Trace) (m : ModuleState) :
  load_module w dotenv environ tr = (Return m, tr') ->
  tr' = tr /\
  OpenAI w (os_environ m) = Return (client m) /\
  is_Some (os_environ m !! "OPENAI_API_KEY") /\
  (forall k v, environ !! k = Some v -> os_environ m !! k = Some v) /\
  (forall k, environ !! k = None -> os_environ m !! k = dotenv !! k).
Proof.
  unfold load_module, bind, lift, ret, set_api_key, os_getenv, os_environ_setitem.
  destruct (load_dotenv dotenv environ !! "OPENAI_API_KEY") as [v|] eqn:Hkey;
    [|discriminate].
  rewrite (insert_id _ _ _ Hkey).
  destruct (OpenAI w (load_dotenv dotenv environ)) as [c|e] eqn:Hclient;
    [|discriminate].
  intros [= <- <-]. cbn [os_environ client]. unfold load_dotenv in *.
  split; [reflexivity|]. split; [exact Hclient|]. split; [now exists v|]. split.
  - intros k u Hk. now apply lookup_union_Some_l.
  - intros k Hk. now apply lookup_union_r.
Qed.

Lemma load_module_environment_witness :
  ([] : Trace) = [] /\
  OpenAI (mock_world offline_client) (os_environ loaded_module)
  = Return (client loaded_module) /\
  is_Some (os_environ loaded_module !! "OPENAI_API_KEY") /\
  (forall k v, process_environ !! k = Some v -> os_environ loaded_module !! k = Some v) /\
  (forall k, process_environ !! k = None ->
             os_environ loaded_module !! k = dotenv_file !! k).
Proof.
  apply (load_module_environment (mock_world offline_client) dotenv_file
           process_environ [] [] loaded_module).
  reflexivity.
Defined.

(** The key of the process wins over the one of the file, and the file
    supplies what the process lacks. *)
Example process_key_wins :
  os_environ loaded_module !! "OPENAI_API_KEY" = Some "sk-env" /\
  os_environ loaded_module !! "OPENAI_ORG_ID" = Some "org-file".
Proof. split; reflexivity. Qed.

(** X12. How the answer is read. Only the first choice counts: when it
    holds a parsed result, that result is shown, whatever the other
    choices are, unless its score has more than 4300 digits, which is
    shown as the error text of the failed conversion. An answer without
    choices is shown as "Error analyzing image: list index out of range",
    and a first choice with nothing parsed (a refusal) as "Error analyzing
    image: 'NoneType' object has no attribute 'hair_type'". *)
Theorem reading_the_answer (w : World) (client : OpenAIClient) (image : PILImage)
    (tr : Trace) (jpeg : list byte) (completion : ParsedChatCompletion) :
  save_jpeg w image = Return jpeg ->
  chat_completions_parse client (build_request (Base64.b64encode jpeg))
    = Return completion ->
  fst (analyze_hair w client (Some image) tr)
  = Return
      match choices completion with
      | [] => "Error analyzing image: list index out of range"
      | choice :: _ =>
          match parsed (message choice) with
          | Some r =>
              if (4300 <? decimal_digits (health_score r))%nat
              then "Error analyzing image: Exceeds the limit (4300 digits) for integer string conversion; use sys.set_int_max_str_digits() to increase the limit"
              else formatted_result r
          | None =>
              "Error analyzing image: 'NoneType' object has no attribute 'hair_type'"
          end
      end.
Proof.
  intros Hsave Hcall.
  destruct (choices completion) as [|choice others] eqn:Hch.
  - now rewrite (analyze_hair_no_choice w client image tr jpeg completion Hsave Hcall Hch).
  - destruct (parsed (message choice)) as [r|] eqn:Hp.
    + rewrite (analyze_hair_hands_back w client image tr r)
        by (exists jpeg, completion, choice, others; auto).
      reflexivity.
    + now rewrite (analyze_hair_not_parsed w client image tr jpeg completion choice others
                     Hsave Hcall Hch Hp).
Qed.

Lemma reading_the_answer_witness :
  fst (analyze_hair (mock_world silent_client) silent_client (Some rgb_pixel) [])
  = Return "Error analyzing image: list index out of range".
Proof.
  apply (reading_the_answer (mock_world silent_client) silent_client rgb_pixel []
           [xff; xd8; x10; x20; x30; xff; xd9] {| choices := [] |}); reflexivity.
Defined.

(** A score of 4301 digits in the first choice is shown as an error. *)
Example overlong_answer_is_an_error :
  fst (analyze_hair (mock_world (mock_client overlong)) (mock_client overlong)
         (Some rgb_pixel) [])
  = Return (error_text digit_limit_error).
Proof. vm_compute. reflexivity. Qed.
